(** * AutoDiary firmware (src/main.cpp): request handlers and audio task

    A shallow embedding of the HTTP request handlers, the camera recovery
    path, the SPIFFS snapshot store and the I2S sampling task of
    [src/main.cpp], together with the properties stated about them.

    The firmware talks to collaborators that are not part of the source
    (camera driver, WebServer, SPIFFS, I2S, WiFi).  Their answers are taken
    from a [Hardware] oracle indexed by a call clock, and every call the
    source makes to them is logged as an [event], in program order.
    Serial logging is left out. *)

From Stdlib Require Import ZArith Lia List Bool.
From stdpp Require Import base strings pretty gmap list.
Import ListNotations.

Local Open Scope Z_scope.

(** ** Machine integers *)

(** [unsigned long] and [size_t] are 32 bits wide on the ESP32-S3. *)
Definition ULONG_BITS : Z := 32.
Definition ULONG_MAX : Z := 2 ^ ULONG_BITS - 1.
Definition to_ulong (z : Z) : Z := z mod 2 ^ ULONG_BITS.
Definition to_size_t (z : Z) : Z := z mod 2 ^ ULONG_BITS.

(** ** Configuration constants *)

Definition AUDIO_SAMPLE_RATE : Z := 16000.
Definition AUDIO_BUFFER_SIZE : Z := 512.
Definition AUDIO_CHANNELS : Z := 1.
Definition sizeof_short : Z := 2.

(** [short audio_buffer[AUDIO_BUFFER_SIZE * 2]], seen as bytes. *)
Definition audio_buffer_len : Z := AUDIO_BUFFER_SIZE * 2.
Definition sizeof_audio_buffer : Z := audio_buffer_len * sizeof_short.

Definition ESP_OK : Z := 0.

Inductive framesize_t := FRAMESIZE_VGA | FRAMESIZE_UXGA.
Inductive pixformat_t := PIXFORMAT_JPEG | PIXFORMAT_OTHER.

(** ** Data *)

(** A frame buffer handed out by the camera driver.  [fb_id] names the
    hand-out (the clock value of the [esp_camera_fb_get] call that
    produced it); [len] of the source is the length of [fb_buf]. *)
Record camera_fb_t := {
  fb_id : nat;
  fb_buf : list Byte.byte;
  fb_width : Z;
  fb_height : Z;
  fb_format : pixformat_t
}.

Definition fb_len (fb : camera_fb_t) : Z := Z.of_nat (length (fb_buf fb)).

(** What the driver delivers for one frame. *)
Record frame_data := {
  fd_buf : list Byte.byte;
  fd_width : Z;
  fd_height : Z;
  fd_format : pixformat_t
}.

Inductive json :=
| JString (s : string)
| JBool (b : bool)
| JUInt (n : Z)
| JInt (n : Z).

(** The payload of a response. *)
Inductive body :=
| BText (s : string)
| BBytes (l : list Byte.byte)
| BJson (doc : list (string * json)).

(** State of the FreeRTOS audio task. *)
Inductive task_state := TaskCreated | TaskLooping | TaskDeleted.

(** Calls to the collaborators, in program order. *)
Inductive event :=
| EvCameraInit (err : Z)
| EvCameraDeinit
| EvSensorGet (present : bool)
| EvSetFramesize (fs : framesize_t)
| EvFbGet (fb : option nat)
| EvFbReturn (id : nat)
| EvDelay (ms : Z)
| EvSendHeader (name value : string)
| EvSend (code : Z) (content_type : string) (content : body)
| EvFileOpen (path mode : string) (ok : bool)
| EvFileWrite (path : string) (data : list Byte.byte)
| EvFileClose (path : string)
| EvSpiffsBegin (ok formatted : bool)
| EvWritePeriReg (reg : string) (value : Z)
| EvRestart
| EvI2SBegin (ok : bool)
| EvI2SAvailable (n : Z)
| EvI2SReadBytes (requested got : Z)
| EvTaskDelay (ms : Z)
| EvTaskDelete.

(** Answers of the collaborators; the argument is the call clock.
    [hw_file_write k] is the number of bytes the flash takes from the
    [File::write] made at clock [k] (the call stores that many, or all it
    is given when that is fewer); [hw_spiffs_begin k] is what
    [SPIFFS.begin] returns and [hw_spiffs_formatted k] whether the call
    formatted the flash on its way. *)
Record Hardware := {
  hw_camera_init : nat -> Z;
  hw_sensor_get : nat -> bool;
  hw_fb_get : nat -> option frame_data;
  hw_open_write : nat -> bool;
  hw_file_write : nat -> Z;
  hw_spiffs_begin : nat -> bool;
  hw_spiffs_formatted : nat -> bool;
  hw_i2s_begin : nat -> bool;
  hw_i2s_available : nat -> Z;
  hw_i2s_data : nat -> list Byte.byte;
  hw_local_ip : string;
  hw_rssi : Z
}.

(** The global variables of [main.cpp], the flash file system and the
    call clock.  [audio_buffer_pos] and [last_frame_time] are declared in
    the source but never read or written, and are left out. *)
Record World := {
  camera_initialized : bool;
  wifi_connected : bool;
  i2s_initialized : bool;
  frame_count : Z;
  audio_bytes_captured : Z;
  audio_buffer : list Byte.byte;
  audio_data_ready : bool;
  spiffs : gmap string (list Byte.byte);
  clock : nat;
  running : bool;
  audio_task : task_state
}.

Definition set_camera_initialized (b : bool) (w : World) : World :=
  {| camera_initialized := b; wifi_connected := wifi_connected w;
     i2s_initialized := i2s_initialized w; frame_count := frame_count w;
     audio_bytes_captured := audio_bytes_captured w;
     audio_buffer := audio_buffer w; audio_data_ready := audio_data_ready w;
     spiffs := spiffs w; clock := clock w; running := running w;
     audio_task := audio_task w |}.

Definition set_wifi_connected (b : bool) (w : World) : World :=
  {| camera_initialized := camera_initialized w; wifi_connected := b;
     i2s_initialized := i2s_initialized w; frame_count := frame_count w;
     audio_bytes_captured := audio_bytes_captured w;
     audio_buffer := audio_buffer w; audio_data_ready := audio_data_ready w;
     spiffs := spiffs w; clock := clock w; running := running w;
     audio_task := audio_task w |}.

Definition set_i2s_initialized (b : bool) (w : World) : World :=
  {| camera_initialized := camera_initialized w;
     wifi_connected := wifi_connected w;
     i2s_initialized := b; frame_count := frame_count w;
     audio_bytes_captured := audio_bytes_captured w;
     audio_buffer := audio_buffer w; audio_data_ready := audio_data_ready w;
     spiffs := spiffs w; clock := clock w; running := running w;
     audio_task := audio_task w |}.

Definition set_frame_count (n : Z) (w : World) : World :=
  {| camera_initialized := camera_initialized w;
     wifi_connected := wifi_connected w;
     i2s_initialized := i2s_initialized w; frame_count := n;
     audio_bytes_captured := audio_bytes_captured w;
     audio_buffer := audio_buffer w; audio_data_ready := audio_data_ready w;
     spiffs := spiffs w; clock := clock w; running := running w;
     audio_task := audio_task w |}.

Definition set_audio_bytes_captured (n : Z) (w : World) : World :=
  {| camera_initialized := camera_initialized w;
     wifi_connected := wifi_connected w;
     i2s_initialized := i2s_initialized w; frame_count := frame_count w;
     audio_bytes_captured := n;
     audio_buffer := audio_buffer w; audio_data_ready := audio_data_ready w;
     spiffs := spiffs w; clock := clock w; running := running w;
     audio_task := audio_task w |}.

Definition set_audio_buffer (l : list Byte.byte) (w : World) : World :=
  {| camera_initialized := camera_initialized w;
     wifi_connected := wifi_connected w;
     i2s_initialized := i2s_initialized w; frame_count := frame_count w;
     audio_bytes_captured := audio_bytes_captured w;
     audio_buffer := l; audio_data_ready := audio_data_ready w;
     spiffs := spiffs w; clock := clock w; running := running w;
     audio_task := audio_task w |}.

Definition set_audio_data_ready (b : bool) (w : World) : World :=
  {| camera_initialized := camera_initialized w;
     wifi_connected := wifi_connected w;
     i2s_initialized := i2s_initialized w; frame_count := frame_count w;
     audio_bytes_captured := audio_bytes_captured w;
     audio_buffer := audio_buffer w; audio_data_ready := b;
     spiffs := spiffs w; clock := clock w; running := running w;
     audio_task := audio_task w |}.

Definition set_spiffs (m : gmap string (list Byte.byte)) (w : World) : World :=
  {| camera_initialized := camera_initialized w;
     wifi_connected := wifi_connected w;
     i2s_initialized := i2s_initialized w; frame_count := frame_count w;
     audio_bytes_captured := audio_bytes_captured w;
     audio_buffer := audio_buffer w; audio_data_ready := audio_data_ready w;
     spiffs := m; clock := clock w; running := running w;
     audio_task := audio_task w |}.

Definition set_clock (n : nat) (w : World) : World :=
  {| camera_initialized := camera_initialized w;
     wifi_connected := wifi_connected w;
     i2s_initialized := i2s_initialized w; frame_count := frame_count w;
     audio_bytes_captured := audio_bytes_captured w;
     audio_buffer := audio_buffer w; audio_data_ready := audio_data_ready w;
     spiffs := spiffs w; clock := n; running := running w;
     audio_task := audio_task w |}.

Definition set_running (b : bool) (w : World) : World :=
  {| camera_initialized := camera_initialized w;
     wifi_connected := wifi_connected w;
     i2s_initialized := i2s_initialized w; frame_count := frame_count w;
     audio_bytes_captured := audio_bytes_captured w;
     audio_buffer := audio_buffer w; audio_data_ready := audio_data_ready w;
     spiffs := spiffs w; clock := clock w; running := b;
     audio_task := audio_task w |}.

Definition set_audio_task (t : task_state) (w : World) : World :=
  {| camera_initialized := camera_initialized w;
     wifi_connected := wifi_connected w;
     i2s_initialized := i2s_initialized w; frame_count := frame_count w;
     audio_bytes_captured := audio_bytes_captured w;
     audio_buffer := audio_buffer w; audio_data_ready := audio_data_ready w;
     spiffs := spiffs w; clock := clock w; running := running w;
     audio_task := t |}.

(** ** The monad of the firmware

    Global state, a log of the calls made, and failure.  [None] stands
    for a memory fault (a write outside an array); nothing else fails. *)

Definition M (A : Type) : Type := World -> option (A * World * list event).

Definition ret {A} (a : A) : M A := fun w => Some (a, w, []).

Definition bind {A B} (c : M A) (k : A -> M B) : M B :=
  fun w =>
    match c w with
    | None => None
    | Some (a, w1, l1) =>
        match k a w1 with
        | None => None
        | Some (b, w2, l2) => Some (b, w2, l1 ++ l2)
        end
    end.

Declare Scope fw_scope.
Delimit Scope fw_scope with fw.
Notation "'let*' x ':=' c 'in' k" := (bind c (fun x => k))
  (at level 10, x name, c at level 100, k at level 200) : fw_scope.
Notation "c1 '>>' c2" := (bind c1 (fun _ => c2))
  (at level 62, right associativity) : fw_scope.
Local Open Scope fw_scope.

Definition emit (e : event) : M unit := fun w => Some (tt, w, [e]).
Definition gets {A} (f : World -> A) : M A := fun w => Some (f w, w, []).
Definition modify (f : World -> World) : M unit := fun w => Some (tt, f w, []).
Definition fault {A} : M A := fun _ => None.

(** One more call to a collaborator: returns the clock of this call. *)
Definition tick : M nat :=
  fun w => Some (clock w, set_clock (S (clock w)) w, []).

(** ** Responses, as assembled by the WebServer from the calls

    [sendHeader] queues a header; the next [send] ships the queued
    headers with its own status code, content type argument and body. *)

Record response := {
  resp_code : Z;
  resp_content_type : string;
  resp_headers : list (string * string);
  resp_body : body
}.

Fixpoint responses_from (pending : list (string * string)) (l : list event)
  : list response :=
  match l with
  | [] => []
  | EvSendHeader n v :: l' => responses_from (pending ++ [(n, v)]) l'
  | EvSend c t b :: l' =>
      {| resp_code := c; resp_content_type := t;
         resp_headers := pending; resp_body := b |} :: responses_from [] l'
  | _ :: l' => responses_from pending l'
  end.

Definition responses (l : list event) : list response := responses_from [] l.

(** ** Frame handles in a log *)

(** Scans a log with the handle currently outstanding, if any: a frame
    may be handed out only when none is outstanding, and only the
    outstanding one may be given back.  Returns the handle outstanding at
    the end, or [None] when the discipline is broken somewhere. *)
Fixpoint track_frames (held : option nat) (l : list event)
  : option (option nat) :=
  match l with
  | [] => Some held
  | EvFbGet (Some id) :: l' =>
      match held with
      | None => track_frames (Some id) l'
      | Some _ => None
      end
  | EvFbReturn id :: l' =>
      match held with
      | Some id' => if Nat.eqb id id' then track_frames None l' else None
      | None => None
      end
  | _ :: l' => track_frames held l'
  end.

(** Number of handles outstanding after a log (hand-outs minus returns). *)
Fixpoint outstanding (l : list event) : Z :=
  match l with
  | [] => 0
  | EvFbGet (Some _) :: l' => 1 + outstanding l'
  | EvFbReturn _ :: l' => outstanding l' - 1
  | _ :: l' => outstanding l'
  end.

Definition count_get (id : nat) (l : list event) : nat :=
  length (List.filter (fun e => match e with
                           | EvFbGet (Some i) => Nat.eqb i id
                           | _ => false end) l).

Definition count_return (id : nat) (l : list event) : nat :=
  length (List.filter (fun e => match e with
                           | EvFbReturn i => Nat.eqb i id
                           | _ => false end) l).

(** ** The firmware *)

Inductive http_method := HTTP_GET | HTTP_POST | HTTP_ANY_OTHER.

(** A request as the router sees it: method and path (the WebServer
    strips the query string before routing). *)
Record request := { req_method : http_method; req_uri : string }.

Inductive activity :=
| Request (r : request)
| AudioTick
| VideoTick.

(** Arduino [String(n)]: the decimal representation. *)
Definition String_of (n : Z) : string := pretty n.
Arguments String_of : simpl never.
Arguments to_ulong : simpl never.
Arguments to_size_t : simpl never.

(** The values [setupCamera] stores in the global [config]. *)
Record camera_config_t := {
  frame_size : framesize_t;
  pixel_format : pixformat_t;
  jpeg_quality : Z;
  fb_count : Z
}.

Definition config : camera_config_t :=
  {| frame_size := FRAMESIZE_UXGA; pixel_format := PIXFORMAT_JPEG;
     jpeg_quality := 12; fb_count := 1 |}.

(** [memcpy]-like write of [src] at the start of [dst]; [None] when
    [src] does not fit. *)
Definition mem_write (dst src : list Byte.byte) : option (list Byte.byte) :=
  if (length src <=? length dst)%nat
  then Some (src ++ drop (length src) dst)
  else None.

Section Firmware.

Variable hw : Hardware.
Variable html_page : string.

(** [wifi_status k] tells whether the call to [WiFi.status()] made at
    clock [k] returns [WL_CONNECTED]. *)
Variable wifi_status : nat -> bool.

(** *** Camera driver *)

Definition esp_camera_init (cfg : camera_config_t) : M Z :=
  let* k := tick in
  let err := hw_camera_init hw k in
  emit (EvCameraInit err) >> ret err.

Definition esp_camera_deinit : M unit := emit EvCameraDeinit.

Definition esp_camera_sensor_get : M bool :=
  let* k := tick in
  let s := hw_sensor_get hw k in
  emit (EvSensorGet s) >> ret s.

Definition set_framesize (fs : framesize_t) : M unit :=
  emit (EvSetFramesize fs).

Definition esp_camera_fb_get : M (option camera_fb_t) :=
  let* k := tick in
  match hw_fb_get hw k with
  | Some d =>
      emit (EvFbGet (Some k)) >>
      ret (Some {| fb_id := k; fb_buf := fd_buf d; fb_width := fd_width d;
                   fb_height := fd_height d; fb_format := fd_format d |})
  | None => emit (EvFbGet None) >> ret None
  end.

Definition esp_camera_fb_return (fb : camera_fb_t) : M unit :=
  emit (EvFbReturn (fb_id fb)).

Definition delay (ms : Z) : M unit := emit (EvDelay ms).

(** *** WebServer *)

Definition server_sendHeader (name value : string) : M unit :=
  emit (EvSendHeader name value).

Definition server_send (code : Z) (content_type : string) (content : body)
  : M unit :=
  emit (EvSend code content_type content).

Definition server_send_P (code : Z) (content_type : string)
  (content : list Byte.byte) (len : Z) : M unit :=
  emit (EvSend code content_type (BBytes (take (Z.to_nat len) content))).

(** *** SPIFFS *)

(** [SPIFFS.begin(formatOnFail)]: mounts the file system; with
    [formatOnFail] a failed mount makes the library format the flash, which
    erases every file, and mount again. *)
Definition SPIFFS_begin (formatOnFail : bool) : M bool :=
  let* k := tick in
  let ok := hw_spiffs_begin hw k in
  let formatted := formatOnFail && hw_spiffs_formatted hw k in
  emit (EvSpiffsBegin ok formatted) >>
  (if formatted then modify (set_spiffs ∅) else ret tt) >>
  ret ok.

(** [SPIFFS.open(path, FILE_WRITE)]: creates or truncates the file. *)
Definition SPIFFS_open_write (path : string) : M bool :=
  let* k := tick in
  let ok := hw_open_write hw k in
  emit (EvFileOpen path "w" ok) >>
  (if ok then modify (fun w => set_spiffs (<[path := []]> (spiffs w)) w)
   else ret tt) >>
  ret ok.

(** [file.write(buf, len)]: appends as many of the bytes as the flash
    takes and returns how many that was. *)
Definition file_write (path : string) (data : list Byte.byte) : M Z :=
  let* k := tick in
  let stored := take (Z.to_nat (hw_file_write hw k)) data in
  emit (EvFileWrite path data) >>
  modify (fun w =>
    set_spiffs
      (<[path := default [] (spiffs w !! path) ++ stored]> (spiffs w)) w) >>
  ret (Z.of_nat (length stored)).

Definition file_close (path : string) : M unit := emit (EvFileClose path).

(** [SPIFFS.open(path, "r")]: the content when the file exists. *)
Definition SPIFFS_open_read (path : string) : M (option (list Byte.byte)) :=
  let* f := gets (fun w => spiffs w !! path) in
  emit (EvFileOpen path "r" (bool_decide (is_Some f))) >> ret f.

Definition server_streamFile (content : list Byte.byte)
  (content_type : string) : M unit :=
  emit (EvSend 200 content_type (BBytes content)).

(** *** I2S *)

Definition I2S_begin : M bool :=
  let* k := tick in
  let ok := hw_i2s_begin hw k in
  emit (EvI2SBegin ok) >> ret ok.

(** [I2S.available()] returns an [int]; the source stores it in a
    [size_t]. *)
Definition I2S_available : M Z :=
  let* k := tick in
  let n := to_size_t (hw_i2s_available hw k) in
  emit (EvI2SAvailable n) >> ret n.

(** [I2S.readBytes((char * )audio_buffer, len)]: copies at most [len] of
    the bytes the hardware holds to the start of [audio_buffer] and
    returns how many were copied. *)
Definition I2S_readBytes_audio_buffer (len : Z) : M Z :=
  let* k := tick in
  let data := take (Z.to_nat len) (hw_i2s_data hw k) in
  let* buf := gets audio_buffer in
  match mem_write buf data with
  | None => fault
  | Some buf' =>
      modify (set_audio_buffer buf') >>
      emit (EvI2SReadBytes len (Z.of_nat (length data))) >>
      ret (Z.of_nat (length data))
  end.

Definition vTaskDelay (ms : Z) : M unit := emit (EvTaskDelay ms).

(** [WRITE_PERI_REG(reg, value)]. *)
Definition WRITE_PERI_REG (reg : string) (value : Z) : M unit :=
  emit (EvWritePeriReg reg value).

(** *** Initialisation *)

(** The loop [while (WiFi.status() != WL_CONNECTED && attempts < 30)] of
    [setupWiFi], with [remaining = 30 - attempts]: the status is queried
    first, the attempt count second. *)
Fixpoint wifi_wait (remaining : nat) : M unit :=
  let* k := tick in
  if negb (wifi_status k) then
    match remaining with
    | O => ret tt
    | S remaining' => delay 1000 >> wifi_wait remaining'
    end
  else ret tt.

Definition setupWiFi : M unit :=
  wifi_wait 30 >>
  let* k := tick in
  if wifi_status k then modify (set_wifi_connected true) else ret tt.

Definition setupCamera : M unit :=
  let* err := esp_camera_init config in
  if err =? ESP_OK then
    modify (set_camera_initialized true) >>
    let* s := esp_camera_sensor_get in
    (if s then set_framesize FRAMESIZE_VGA else ret tt) >>
    let* test_fb := esp_camera_fb_get in
    match test_fb with
    | Some fb => esp_camera_fb_return fb
    | None => ret tt
    end
  else ret tt.

Definition setupI2S : M unit :=
  let* ok := I2S_begin in
  if negb ok then ret tt
  else modify (set_i2s_initialized true).

(** *** Request handlers *)

Definition handleRoot : M unit :=
  server_send 200 "text/html; charset=utf-8" (BText html_page).

Definition handleVideoJpeg : M unit :=
  let* initialized := gets camera_initialized in
  if negb initialized then
    server_send 503 "text/plain" (BText "Camera not initialized")
  else
    let* fb := esp_camera_fb_get in
    match fb with
    | Some fb =>
        server_sendHeader "Content-Type" "image/jpeg" >>
        server_sendHeader "Content-Length" (String_of (fb_len fb)) >>
        server_sendHeader "Cache-Control" "no-cache" >>
        server_send_P 200 "image/jpeg" (fb_buf fb) (fb_len fb) >>
        esp_camera_fb_return fb >>
        modify (fun w => set_frame_count (to_ulong (frame_count w + 1)) w)
    | None =>
        esp_camera_deinit >>
        delay 100 >>
        let* err := esp_camera_init config in
        (* [returned] is true when the retry branch left the function *)
        let* returned :=
          if err =? ESP_OK then
            let* s := esp_camera_sensor_get in
            (if s then set_framesize FRAMESIZE_VGA else ret tt) >>
            let* fb := esp_camera_fb_get in
            match fb with
            | Some fb =>
                server_sendHeader "Content-Type" "image/jpeg" >>
                server_sendHeader "Content-Length" (String_of (fb_len fb)) >>
                server_send_P 200 "image/jpeg" (fb_buf fb) (fb_len fb) >>
                esp_camera_fb_return fb >>
                modify (fun w =>
                  set_frame_count (to_ulong (frame_count w + 1)) w) >>
                ret true
            | None => ret false
            end
          else ret false in
        if returned then ret tt
        else server_send 503 "text/plain" (BText "Camera capture failed")
    end.

Definition handleCapture : M unit :=
  let* initialized := gets camera_initialized in
  if negb initialized then
    server_send 503 "text/plain" (BText "Camera not initialized")
  else
    let* fb := esp_camera_fb_get in
    match fb with
    | Some fb =>
        let* file := SPIFFS_open_write "/photo.jpg" in
        (if file then
           file_write "/photo.jpg" (take (Z.to_nat (fb_len fb)) (fb_buf fb)) >>
           file_close "/photo.jpg" >>
           server_send 200 "text/plain; charset=utf-8" (BText "拍照成功")
         else
           server_send 503 "text/plain" (BText "Failed to save photo")) >>
        esp_camera_fb_return fb
    | None =>
        server_send 503 "text/plain" (BText "Camera capture failed")
    end.

Definition handleSave : M unit :=
  server_send 200 "text/plain; charset=utf-8" (BText "照片已保存到 SD 卡").

Definition handleSavedPhoto : M unit :=
  let* file := SPIFFS_open_read "/photo.jpg" in
  match file with
  | Some content =>
      server_sendHeader "Content-Type" "image/jpeg" >>
      server_sendHeader "Content-Length"
        (String_of (Z.of_nat (length content))) >>
      server_streamFile content "image/jpeg" >>
      file_close "/photo.jpg"
  | None => server_send 404 "text/plain" (BText "Photo not found")
  end.

Definition onAudioCapture : M unit :=
  server_sendHeader "Content-Type" "audio/wav" >>
  server_send 200 "text/plain" (BText "Audio stream endpoint").

(** The JSON document [handleStatus] fills in. *)
Definition status_doc (w : World) : list (string * json) :=
  [ ("device", JString "XIAO-ESP32S3-Sense");
    ("firmware_version", JString "v2.0");
    ("wifi_connected", JBool (wifi_connected w));
    ("ip_address", JString (hw_local_ip hw));
    ("camera_initialized", JBool (camera_initialized w));
    ("i2s_initialized", JBool (i2s_initialized w));
    ("frame_count", JUInt (frame_count w));
    ("signal_strength", JInt (hw_rssi hw)) ].

Definition handleStatus : M unit :=
  let* doc := gets status_doc in
  server_sendHeader "Content-Type" "application/json; charset=utf-8" >>
  server_send 200 "application/json" (BJson doc).

Definition handleRestart : M unit :=
  server_send 200 "text/plain; charset=utf-8" (BText "设备重启中...") >>
  delay 1000 >>
  emit EvRestart >>
  modify (set_running false).

Definition handleNotFound : M unit :=
  server_send 404 "text/plain; charset=utf-8" (BText "404 - 页面未找到").

(** The routes registered by [setupWebServer], all for [HTTP_GET]. *)
Definition handleClient (r : request) : M unit :=
  match req_method r with
  | HTTP_GET =>
      if String.eqb (req_uri r) "/" then handleRoot
      else if String.eqb (req_uri r) "/video.jpg" then handleVideoJpeg
      else if String.eqb (req_uri r) "/capture" then handleCapture
      else if String.eqb (req_uri r) "/save" then handleSave
      else if String.eqb (req_uri r) "/saved_photo" then handleSavedPhoto
      else if String.eqb (req_uri r) "/audio" then onAudioCapture
      else if String.eqb (req_uri r) "/status" then handleStatus
      else if String.eqb (req_uri r) "/restart" then handleRestart
      else handleNotFound
  | _ => handleNotFound
  end.

(** *** Background tasks *)

(** One pass through the body of the [while (1)] loop of
    [audioCaptureTask]. *)
Definition audio_loop_body : M unit :=
  let* initialized := gets i2s_initialized in
  (if initialized then
     let* bytes_available := I2S_available in
     if 0 <? bytes_available then
       let bytes_to_read :=
         if bytes_available >? AUDIO_BUFFER_SIZE * 2
         then AUDIO_BUFFER_SIZE * 2 else bytes_available in
       let* bytes_read := I2S_readBytes_audio_buffer bytes_to_read in
       if 0 <? bytes_read then
         modify (fun w =>
           set_audio_bytes_captured
             (to_ulong (audio_bytes_captured w + bytes_read)) w) >>
         modify (set_audio_data_ready true)
       else ret tt
     else ret tt
   else ret tt) >>
  vTaskDelay 100.

(** One scheduling slot of [audioCaptureTask]: the entry check the first
    time, one loop pass afterwards, nothing once the task is deleted. *)
Definition audioCaptureTask : M unit :=
  let* t := gets audio_task in
  match t with
  | TaskCreated =>
      let* initialized := gets i2s_initialized in
      if negb initialized then
        emit EvTaskDelete >> modify (set_audio_task TaskDeleted)
      else modify (set_audio_task TaskLooping)
  | TaskLooping => audio_loop_body
  | TaskDeleted => ret tt
  end.

(** One pass of the loop of [videoCaptureTask]. *)
Definition videoCaptureTask : M unit := vTaskDelay 1000.

(** *** The process *)

Definition step (a : activity) : M unit :=
  match a with
  | Request r => handleClient r
  | AudioTick => audioCaptureTask
  | VideoTick => videoCaptureTask
  end.

(** Runs a schedule; nothing runs once [ESP.restart()] was called. *)
Fixpoint run (sched : list activity) : M unit :=
  match sched with
  | [] => ret tt
  | a :: rest =>
      let* alive := gets running in
      if alive then step a >> run rest else ret tt
  end.

(** [setup()]: the pause, the brown-out detector, the file system, WiFi,
    camera, I2S, and the creation of the tasks ([setupWebServer] registers
    the routes of [handleClient]). *)
Definition setup : M unit :=
  delay 3000 >>
  WRITE_PERI_REG "RTC_CNTL_BROWN_OUT_REG" 0 >>
  SPIFFS_begin true >>
  setupWiFi >>
  setupCamera >>
  setupI2S >>
  modify (set_audio_task TaskCreated).

End Firmware.

(** The globals as initialised by the C++ runtime, on a given flash
    content. *)
Definition boot (flash : gmap string (list Byte.byte)) : World :=
  {| camera_initialized := false; wifi_connected := false;
     i2s_initialized := false; frame_count := 0;
     audio_bytes_captured := 0;
     audio_buffer := replicate (Z.to_nat sizeof_audio_buffer) Byte.x00;
     audio_data_ready := false; spiffs := flash; clock := 0%nat;
     running := true; audio_task := TaskCreated |}.

(** ** Sample collaborators and states *)

Definition sample_frame : frame_data :=
  {| fd_buf := [Byte.xff; Byte.xd8; Byte.xff; Byte.xd9];
     fd_width := 640; fd_height := 480; fd_format := PIXFORMAT_JPEG |}.

(** Everything works. *)
Definition hw_healthy : Hardware :=
  {| hw_camera_init := fun _ => ESP_OK;
     hw_sensor_get := fun _ => true;
     hw_fb_get := fun _ => Some sample_frame;
     hw_open_write := fun _ => true;
     hw_file_write := fun _ => 65536;
     hw_spiffs_begin := fun _ => true;
     hw_spiffs_formatted := fun _ => false;
     hw_i2s_begin := fun _ => true;
     hw_i2s_available := fun _ => 6;
     hw_i2s_data := fun _ =>
       [Byte.x01; Byte.x02; Byte.x03; Byte.x04; Byte.x05; Byte.x06];
     hw_local_ip := "192.168.1.50";
     hw_rssi := -60 |}.

(** Nothing works: no camera (ESP_ERR_NOT_FOUND), no flash, no I2S. *)
Definition hw_dead : Hardware :=
  {| hw_camera_init := fun _ => 261;
     hw_sensor_get := fun _ => false;
     hw_fb_get := fun _ => None;
     hw_open_write := fun _ => false;
     hw_file_write := fun _ => 0;
     hw_spiffs_begin := fun _ => false;
     hw_spiffs_formatted := fun _ => false;
     hw_i2s_begin := fun _ => false;
     hw_i2s_available := fun _ => 0;
     hw_i2s_data := fun _ => [];
     hw_local_ip := "0.0.0.0";
     hw_rssi := 0 |}.

(** The camera initialises but never delivers a frame. *)
Definition hw_no_frames : Hardware :=
  {| hw_camera_init := fun _ => ESP_OK;
     hw_sensor_get := fun _ => true;
     hw_fb_get := fun _ => None;
     hw_open_write := fun _ => true;
     hw_file_write := fun _ => 65536;
     hw_spiffs_begin := fun _ => true;
     hw_spiffs_formatted := fun _ => false;
     hw_i2s_begin := fun _ => true;
     hw_i2s_available := fun _ => 0;
     hw_i2s_data := fun _ => [];
     hw_local_ip := "192.168.1.50";
     hw_rssi := -60 |}.

(** The first call to the camera fails, later ones succeed. *)
Definition hw_flaky : Hardware :=
  {| hw_camera_init := fun _ => ESP_OK;
     hw_sensor_get := fun _ => true;
     hw_fb_get := fun k => if Nat.eqb k 0 then None else Some sample_frame;
     hw_open_write := fun _ => true;
     hw_file_write := fun _ => 65536;
     hw_spiffs_begin := fun _ => true;
     hw_spiffs_formatted := fun _ => false;
     hw_i2s_begin := fun _ => true;
     hw_i2s_available := fun _ => 6;
     hw_i2s_data := fun _ =>
       [Byte.x01; Byte.x02; Byte.x03; Byte.x04; Byte.x05; Byte.x06];
     hw_local_ip := "192.168.1.50";
     hw_rssi := -60 |}.

(** Everything works, but the flash takes only two bytes of a write. *)
Definition hw_short_write : Hardware :=
  {| hw_camera_init := fun _ => ESP_OK;
     hw_sensor_get := fun _ => true;
     hw_fb_get := fun _ => Some sample_frame;
     hw_open_write := fun _ => true;
     hw_file_write := fun _ => 2;
     hw_spiffs_begin := fun _ => true;
     hw_spiffs_formatted := fun _ => false;
     hw_i2s_begin := fun _ => true;
     hw_i2s_available := fun _ => 6;
     hw_i2s_data := fun _ =>
       [Byte.x01; Byte.x02; Byte.x03; Byte.x04; Byte.x05; Byte.x06];
     hw_local_ip := "192.168.1.50";
     hw_rssi := -60 |}.

(** A device whose camera and microphone came up, on an empty flash. *)
Definition ready : World :=
  set_camera_initialized true (set_i2s_initialized true (boot ∅)).

Definition GET (uri : string) : activity :=
  Request {| req_method := HTTP_GET; req_uri := uri |}.

Definition is_capture (a : activity) : bool :=
  match a with
  | Request {| req_method := HTTP_GET; req_uri := uri |} =>
      String.eqb uri "/capture"
  | _ => false
  end.

(** Events of a fill cycle: a query of, or a read from, the I2S driver. *)
Definition is_i2s_event (e : event) : bool :=
  match e with
  | EvI2SAvailable _ | EvI2SReadBytes _ _ => true
  | _ => false
  end.

(** Events of the camera recovery sequence. *)
Definition is_recovery_event (e : event) : bool :=
  match e with
  | EvCameraDeinit | EvCameraInit _ | EvSetFramesize _ | EvDelay _ => true
  | _ => false
  end.

Definition is_fb_get (e : event) : bool :=
  match e with
  | EvFbGet _ => true
  | _ => false
  end.

Fixpoint assoc (key : string) (doc : list (string * json)) : option json :=
  match doc with
  | [] => None
  | (k, v) :: doc' => if String.eqb k key then Some v else assoc key doc'
  end.

(** What a client of [/status] reads under [key] in state [w]. *)
Definition status_field (hw : Hardware) (key : string) (w : World)
  : option json :=
  match handleStatus hw w with
  | Some (_, _, l) =>
      match responses l with
      | [r] =>
          match resp_body r with
          | BJson doc => assoc key doc
          | _ => None
          end
      | _ => None
      end
  | None => None
  end.

(** The paths registered by [setupWebServer]. *)
Definition registered_uris : list string :=
  ["/"; "/video.jpg"; "/capture"; "/save"; "/saved_photo"; "/audio";
   "/status"; "/restart"].

Definition is_registered (uri : string) : bool :=
  existsb (String.eqb uri) registered_uris.

(** The paths whose handlers write to a global or to a collaborator's
    state. *)
Definition is_mutating (uri : string) : bool :=
  String.eqb uri "/video.jpg" || String.eqb uri "/capture"
  || String.eqb uri "/restart".

Definition is_video (a : activity) : bool :=
  match a with
  | Request {| req_method := HTTP_GET; req_uri := uri |} =>
      String.eqb uri "/video.jpg"
  | _ => false
  end.

Definition is_audio_tick (a : activity) : bool :=
  match a with
  | AudioTick => true
  | _ => false
  end.

Definition is_camera_event (e : event) : bool :=
  match e with
  | EvCameraInit _ | EvCameraDeinit | EvSensorGet _ | EvSetFramesize _
  | EvFbGet _ | EvFbReturn _ => true
  | _ => false
  end.

Definition is_file_write (e : event) : bool :=
  match e with
  | EvFileWrite _ _ => true
  | _ => false
  end.

Definition is_file_event (e : event) : bool :=
  match e with
  | EvFileOpen _ _ _ | EvFileWrite _ _ | EvFileClose _ => true
  | _ => false
  end.

Definition is_delay (e : event) : bool :=
  match e with
  | EvDelay _ => true
  | _ => false
  end.

(** The three start-up flags. *)
Definition same_flags (w w' : World) : Prop :=
  camera_initialized w' = camera_initialized w
  /\ wifi_connected w' = wifi_connected w
  /\ i2s_initialized w' = i2s_initialized w.

(** Number of frames a scan of [track_frames] holds. *)
Definition held_count (h : option nat) : Z :=
  match h with Some _ => 1 | None => 0 end.

(** The state outside the audio buffer, its counter and its flag. *)
Definition same_outside_audio (w w' : World) : Prop :=
  camera_initialized w' = camera_initialized w
  /\ wifi_connected w' = wifi_connected w
  /\ i2s_initialized w' = i2s_initialized w
  /\ frame_count w' = frame_count w
  /\ spiffs w' = spiffs w
  /\ running w' = running w
  /\ audio_task w' = audio_task w.

(** The audio buffer, its counter and its flag. *)
Definition same_audio (w w' : World) : Prop :=
  audio_buffer w' = audio_buffer w
  /\ audio_bytes_captured w' = audio_bytes_captured w
  /\ audio_data_ready w' = audio_data_ready w.

(** The declared extent of [audio_buffer]. *)
Definition audio_buffer_ok (w : World) : Prop :=
  length (audio_buffer w) = Z.to_nat sizeof_audio_buffer.

(** * Properties *)

(** ** Symbolic execution of the firmware *)

Ltac fw_unfold :=
  unfold handleClient, handleRoot, handleVideoJpeg, handleCapture,
    handleSave, handleSavedPhoto, onAudioCapture, handleStatus,
    handleRestart, handleNotFound, setupCamera, setupI2S,
    videoCaptureTask, esp_camera_init, esp_camera_deinit,
    esp_camera_sensor_get, set_framesize, esp_camera_fb_get,
    esp_camera_fb_return, delay, server_sendHeader, server_send,
    server_send_P, SPIFFS_open_write, SPIFFS_open_read, file_write,
    file_close, server_streamFile, SPIFFS_begin, WRITE_PERI_REG,
    I2S_begin, I2S_available,
    I2S_readBytes_audio_buffer, vTaskDelay,
    bind, ret, gets, modify, emit, tick, fault in *.

Ltac fw_simpl :=
  cbn -[Z.eqb Z.ltb Z.gtb Z.add Z.mul Z.of_nat Z.to_nat String.eqb
        take drop lookup insert mem_write length] in *.

Ltac fw_case :=
  match goal with
  | |- context [match hw_fb_get ?h ?k with _ => _ end] =>
      destruct (hw_fb_get h k) eqn:?
  | |- context [if hw_sensor_get ?h ?k then _ else _] =>
      destruct (hw_sensor_get h k) eqn:?
  | |- context [if hw_open_write ?h ?k then _ else _] =>
      destruct (hw_open_write h k) eqn:?
  | |- context [if hw_i2s_begin ?h ?k then _ else _] =>
      destruct (hw_i2s_begin h k) eqn:?
  | |- context [if (hw_camera_init ?h ?k =? ESP_OK) then _ else _] =>
      destruct (hw_camera_init h k =? ESP_OK) eqn:?
  | |- context [if negb (camera_initialized ?w) then _ else _] =>
      destruct (camera_initialized w) eqn:?
  | |- context [match spiffs ?w !! ?p with _ => _ end] =>
      destruct (spiffs w !! p) eqn:?
  | |- context [if String.eqb ?a ?b then _ else _] =>
      destruct (String.eqb a b) eqn:?
  | |- context [match req_method ?r with _ => _ end] =>
      destruct (req_method r) eqn:?
  end.

Ltac fw_run := fw_unfold; fw_simpl; repeat (fw_case; fw_simpl).

Ltac fw_case_setup :=
  first
    [ fw_case
    | match goal with
      | |- context [if negb (hw_i2s_begin ?h ?k) then _ else _] =>
          destruct (hw_i2s_begin h k) eqn:?
      end ].

(** ** Logs *)

Lemma track_frames_app (l1 l2 : list event) (h : option nat) :
  track_frames h (l1 ++ l2) =
  match track_frames h l1 with
  | Some h' => track_frames h' l2
  | None => None
  end.
Proof.
  revert h. induction l1 as [|e l1 IH]; intros h; [reflexivity|].
  destruct e; simpl; try apply IH.
  - destruct fb as [id|]; [destruct h|]; auto.
  - destruct h as [id'|]; [|reflexivity].
    destruct (Nat.eqb id id'); auto.
Qed.

Lemma track_frames_outstanding (l : list event) (h h' : option nat) :
  track_frames h l = Some h' ->
  outstanding l = held_count h' - held_count h.
Proof.
  revert h. induction l as [|e l IH]; intros h H; simpl in *.
  - injection H as <-. lia.
  - destruct e; try (apply IH; exact H).
    + destruct fb as [id|].
      * destruct h; [discriminate|]. apply IH in H. simpl in *. lia.
      * apply IH; exact H.
    + destruct h as [id'|]; [|discriminate].
      destruct (Nat.eqb id id'); [|discriminate].
      apply IH in H. simpl in *. lia.
Qed.

(** Under the hand-out discipline the number of frames outstanding is 0
    or 1 after every prefix of the log. *)
Lemma track_frames_prefix (l l1 l2 : list event) (h' : option nat) :
  track_frames None l = Some h' -> l = l1 ++ l2 ->
  0 <= outstanding l1 <= 1.
Proof.
  intros H ->. rewrite track_frames_app in H.
  destruct (track_frames None l1) as [h1|] eqn:E; [|discriminate].
  apply track_frames_outstanding in E. rewrite E.
  destruct h1; simpl; lia.
Qed.

Lemma to_ulong_small (z : Z) : 0 <= z <= ULONG_MAX -> to_ulong z = z.
Proof.
  unfold to_ulong, ULONG_MAX. intros H. apply Z.mod_small. lia.
Qed.

(** At its largest value an [unsigned long] counter wraps to 0. *)
Lemma to_ulong_wraps : to_ulong (ULONG_MAX + 1) = 0.
Proof. reflexivity. Qed.

(** ** GET /video.jpg *)

(** C7: while [camera_initialized] is false, [handleVideoJpeg] answers
    503 "Camera not initialized" and does nothing else: the only call it
    makes is that [send], so no frame is requested from the camera and no
    step of the recovery sequence runs; the globals are left as they
    were. *)
Theorem handleVideoJpeg_uninitialized (hw : Hardware) (st : World) :
  camera_initialized st = false ->
  handleVideoJpeg hw st =
    Some (tt, st, [EvSend 503 "text/plain" (BText "Camera not initialized")])
  /\ responses [EvSend 503 "text/plain" (BText "Camera not initialized")] =
     [{| resp_code := 503; resp_content_type := "text/plain";
         resp_headers := [];
         resp_body := BText "Camera not initialized" |}].
Proof.
  intros H. split; [|reflexivity].
  unfold handleVideoJpeg, bind, gets. rewrite H. reflexivity.
Qed.

Lemma handleVideoJpeg_uninitialized_witness :
  handleVideoJpeg hw_dead (boot ∅) =
    Some (tt, boot ∅,
          [EvSend 503 "text/plain" (BText "Camera not initialized")])
  /\ responses [EvSend 503 "text/plain" (BText "Camera not initialized")] =
     [{| resp_code := 503; resp_content_type := "text/plain";
         resp_headers := [];
         resp_body := BText "Camera not initialized" |}].
Proof.
  apply (handleVideoJpeg_uninitialized hw_dead (boot ∅)). reflexivity.
Defined.

(** The recovery sequence of [handleVideoJpeg]: when the first
    [esp_camera_fb_get] fails, the handler deinitialises the camera,
    waits 100 ms, calls [esp_camera_init] once and, when that succeeds,
    sets VGA (if the sensor is there) and asks for a frame once more.  It
    ends with exactly one response, and never initialises the camera or
    asks for a frame a third time. *)
Lemma handleVideoJpeg_recovery (hw : Hardware) (st : World) :
  camera_initialized st = true ->
  hw_fb_get hw (clock st) = None ->
  exists st' rest r,
    handleVideoJpeg hw st =
      Some (tt, st',
            [EvFbGet None; EvCameraDeinit; EvDelay 100;
             EvCameraInit (hw_camera_init hw (S (clock st)))] ++ rest)
    /\ ~ In EvCameraDeinit rest
    /\ (forall e, ~ In (EvCameraInit e) rest)
    /\ (length (List.filter is_fb_get rest) <= 1)%nat
    /\ (hw_camera_init hw (S (clock st)) <> ESP_OK ->
        List.filter is_fb_get rest = [])
    /\ responses ([EvFbGet None; EvCameraDeinit; EvDelay 100;
                   EvCameraInit (hw_camera_init hw (S (clock st)))] ++ rest)
       = [r]
    /\ (resp_code r = 200 \/
        (resp_code r = 503 /\ resp_body r = BText "Camera capture failed")).
Proof.
  intros Hinit Hget. unfold handleVideoJpeg, bind at 1, gets.
  rewrite Hinit. fw_unfold. fw_simpl. rewrite Hget. fw_simpl.
  destruct (hw_camera_init hw (S (clock st)) =? ESP_OK) eqn:Herr; fw_simpl.
  - repeat (fw_case; fw_simpl).
    all: eexists _, _, _; split; [reflexivity|].
    all: cbn; repeat split; try (intros; intuition congruence); auto.
    all: try (intros Hne; apply Z.eqb_eq in Herr; contradiction).
  - eexists _, _, _; split; [reflexivity|].
    cbn; repeat split; try (intros; intuition congruence); auto.
Qed.

(** C1 (evaluation of [handleCapture] where its first acquire fails):
    with the camera initialised and [esp_camera_fb_get] returning NULL,
    [handleCapture] makes two calls only, the failed acquire and
    [send(503, "Camera capture failed")].  It runs no step of the
    recovery sequence that [handleVideoJpeg] runs in the same situation
    (no deinit, no pause, no init, no resolution policy) and does not
    retry the acquire. *)
Theorem handleCapture_no_recovery (hw : Hardware) (st : World) :
  camera_initialized st = true ->
  hw_fb_get hw (clock st) = None ->
  exists st' l,
    handleCapture hw st = Some (tt, st', l)
    /\ l = [EvFbGet None;
            EvSend 503 "text/plain" (BText "Camera capture failed")]
    /\ List.filter is_recovery_event l = []
    /\ length (List.filter is_fb_get l) = 1%nat.
Proof.
  intros Hinit Hget. unfold handleCapture, bind at 1, gets.
  rewrite Hinit. fw_unfold. fw_simpl. rewrite Hget. fw_simpl.
  eexists _, _. repeat split.
Qed.

Lemma handleCapture_no_recovery_witness :
  exists st' l,
    handleCapture hw_no_frames ready = Some (tt, st', l)
    /\ l = [EvFbGet None;
            EvSend 503 "text/plain" (BText "Camera capture failed")]
    /\ List.filter is_recovery_event l = []
    /\ length (List.filter is_fb_get l) = 1%nat.
Proof.
  apply (handleCapture_no_recovery hw_no_frames ready); reflexivity.
Defined.

(** In the same situation [handleVideoJpeg] does run the sequence. *)
Example handleVideoJpeg_recovers_where_capture_does_not :
  exists st',
    handleVideoJpeg hw_no_frames ready =
      Some (tt, st',
            [EvFbGet None; EvCameraDeinit; EvDelay 100; EvCameraInit ESP_OK;
             EvSensorGet true; EvSetFramesize FRAMESIZE_VGA; EvFbGet None;
             EvSend 503 "text/plain" (BText "Camera capture failed")]).
Proof. eexists. reflexivity. Qed.

Lemma status_frame_count (hw : Hardware) (w : World) :
  status_field hw "frame_count" w = Some (JUInt (frame_count w)).
Proof. reflexivity. Qed.

(** [handleVideoJpeg] always answers with one response, 200 or 503; the
    counter becomes [frame_count + 1] in [unsigned long] arithmetic on a
    200 and keeps its value on a 503. *)
Lemma handleVideoJpeg_frame_count (hw : Hardware) (st : World) :
  exists st' l r,
    handleVideoJpeg hw st = Some (tt, st', l)
    /\ responses l = [r]
    /\ ((resp_code r = 200
         /\ frame_count st' = to_ulong (frame_count st + 1))
        \/ (resp_code r = 503 /\ frame_count st' = frame_count st)).
Proof.
  fw_run.
  all: eexists _, _, _; split; [reflexivity|]; split; [reflexivity|].
  all: cbn; auto.
Qed.

(** The increment wraps: from [ULONG_MAX] a served frame takes the
    counter to 0. *)
Example frame_count_wraps :
  exists st' l,
    handleVideoJpeg hw_healthy (set_frame_count ULONG_MAX ready) =
      Some (tt, st', l)
    /\ frame_count st' = 0.
Proof. eexists _, _. split; reflexivity. Qed.

(** C2: a GET /video.jpg request is answered by exactly one response,
    with status 200 or 503.  When it is a 200 (first acquire, or the
    acquire after recovery), the [frame_count] that /status reports
    afterwards is the one it reported before, incremented by 1 in the
    arithmetic of its type [unsigned long]: exactly one more below
    [ULONG_MAX], and 0 from [ULONG_MAX] (see [frame_count_wraps]).  When it
    is a 503, /status reports the same [frame_count] as before. *)
Theorem video_jpg_frame_count (hw : Hardware) (html_page : string)
    (st : World) :
  0 <= frame_count st <= ULONG_MAX ->
  exists st' l r n,
    step hw html_page (GET "/video.jpg") st = Some (tt, st', l)
    /\ responses l = [r]
    /\ status_field hw "frame_count" st = Some (JUInt n)
    /\ (resp_code r = 200 \/ resp_code r = 503)
    /\ (resp_code r = 200 ->
        status_field hw "frame_count" st' = Some (JUInt (to_ulong (n + 1)))
        /\ (n < ULONG_MAX ->
            status_field hw "frame_count" st' = Some (JUInt (n + 1))))
    /\ (resp_code r = 503 ->
        status_field hw "frame_count" st' = Some (JUInt n)).
Proof.
  intros Hrange.
  destruct (handleVideoJpeg_frame_count hw st) as (st' & l & r & Hrun & Hr & H).
  exists st', l, r, (frame_count st).
  split; [exact Hrun|]. split; [exact Hr|].
  split; [apply status_frame_count|].
  rewrite !status_frame_count.
  destruct H as [[Hc Hf]|[Hc Hf]]; rewrite Hc, Hf.
  - split; [auto|]. split; [|intros; discriminate].
    intros _. split; [reflexivity|].
    intros Hlt. rewrite to_ulong_small by lia. reflexivity.
  - repeat split; auto; intros; discriminate.
Qed.

Lemma video_jpg_frame_count_witness :
  exists st' l r n,
    step hw_flaky "" (GET "/video.jpg") ready = Some (tt, st', l)
    /\ responses l = [r]
    /\ status_field hw_flaky "frame_count" ready = Some (JUInt n)
    /\ (resp_code r = 200 \/ resp_code r = 503)
    /\ (resp_code r = 200 ->
        status_field hw_flaky "frame_count" st' =
          Some (JUInt (to_ulong (n + 1)))
        /\ (n < ULONG_MAX ->
            status_field hw_flaky "frame_count" st' = Some (JUInt (n + 1))))
    /\ (resp_code r = 503 ->
        status_field hw_flaky "frame_count" st' = Some (JUInt n)).
Proof.
  apply (video_jpg_frame_count hw_flaky "" ready).
  vm_compute. split; discriminate.
Defined.

(** ** GET /audio *)

(** C8: every GET /audio request is answered by one response with status
    200 that carries the header [Content-Type: audio/wav] queued by
    [sendHeader], and the placeholder body "Audio stream endpoint"; the
    globals are left as they were.  (The content type argument of [send]
    itself is "text/plain".) *)
Theorem audio_endpoint_response (hw : Hardware) (html_page : string)
    (st : World) :
  exists l r,
    step hw html_page (GET "/audio") st = Some (tt, st, l)
    /\ responses l = [r]
    /\ resp_code r = 200
    /\ In ("Content-Type", "audio/wav") (resp_headers r)
    /\ resp_body r = BText "Audio stream endpoint"
    /\ r = {| resp_code := 200; resp_content_type := "text/plain";
              resp_headers := [("Content-Type", "audio/wav")];
              resp_body := BText "Audio stream endpoint" |}.
Proof.
  eexists _, _. split; [reflexivity|]. split; [reflexivity|].
  cbn. auto 6.
Qed.

(** ** The audio fill cycle *)

Lemma mem_write_fits (dst src : list Byte.byte) :
  (length src <= length dst)%nat ->
  mem_write dst src = Some (src ++ drop (length src) dst).
Proof.
  intros H. unfold mem_write. apply Nat.leb_le in H. rewrite H. reflexivity.
Qed.

Lemma mem_write_overflow (dst src : list Byte.byte) :
  (length dst < length src)%nat -> mem_write dst src = None.
Proof.
  intros H. unfold mem_write.
  destruct (Nat.leb_spec (length src) (length dst)); [lia | reflexivity].
Qed.

Lemma to_size_t_range (z : Z) : 0 <= to_size_t z <= ULONG_MAX.
Proof.
  unfold to_size_t, ULONG_MAX.
  pose proof (Z.mod_pos_bound z (2 ^ ULONG_BITS)) as H.
  assert (0 < 2 ^ ULONG_BITS) by (unfold ULONG_BITS; lia). lia.
Qed.

Lemma bytes_to_read_bound (available : Z) :
  0 <= available ->
  0 <= (if available >? AUDIO_BUFFER_SIZE * 2
        then AUDIO_BUFFER_SIZE * 2 else available) <= AUDIO_BUFFER_SIZE * 2.
Proof.
  intros H. destruct (Z.gtb_spec available (AUDIO_BUFFER_SIZE * 2));
    unfold AUDIO_BUFFER_SIZE in *; lia.
Qed.

Lemma bytes_to_read_min (available : Z) :
  (if available >? AUDIO_BUFFER_SIZE * 2
   then AUDIO_BUFFER_SIZE * 2 else available)
  = Z.min available (AUDIO_BUFFER_SIZE * 2).
Proof.
  destruct (Z.gtb_spec available (AUDIO_BUFFER_SIZE * 2)); lia.
Qed.

(** What one pass of the loop body does, case by case. *)
Lemma audio_loop_body_run (hw : Hardware) (st : World) :
  audio_buffer_ok st ->
  let available := to_size_t (hw_i2s_available hw (clock st)) in
  let requested := if available >? AUDIO_BUFFER_SIZE * 2
                   then AUDIO_BUFFER_SIZE * 2 else available in
  let data := take (Z.to_nat requested) (hw_i2s_data hw (S (clock st))) in
  let bytes_read := Z.of_nat (length data) in
  exists st' l,
    audio_loop_body hw st = Some (tt, st', l)
    /\ same_outside_audio st st'
    /\ if i2s_initialized st then
         if 0 <? available then
           l = [EvI2SAvailable available;
                EvI2SReadBytes requested bytes_read; EvTaskDelay 100]
           /\ audio_buffer st' = data ++ drop (length data) (audio_buffer st)
           /\ if 0 <? bytes_read then
                audio_bytes_captured st' =
                  to_ulong (audio_bytes_captured st + bytes_read)
                /\ audio_data_ready st' = true
              else
                audio_bytes_captured st' = audio_bytes_captured st
                /\ audio_data_ready st' = audio_data_ready st
         else
           l = [EvI2SAvailable available; EvTaskDelay 100]
           /\ same_audio st st'
       else l = [EvTaskDelay 100] /\ st' = st.
Proof.
  intros Hlen available requested data bytes_read.
  assert (Hfit : (length data <= length (audio_buffer st))%nat).
  { rewrite Hlen. subst data. rewrite length_take.
    pose proof (bytes_to_read_bound available
                  (proj1 (to_size_t_range _))) as Hb.
    fold requested in Hb.
    unfold sizeof_audio_buffer, audio_buffer_len, sizeof_short,
      AUDIO_BUFFER_SIZE in *. lia. }
  unfold audio_loop_body. fw_unfold. fw_simpl.
  destruct (i2s_initialized st) eqn:Hi; fw_simpl.
  - fold available.
    destruct (0 <? available) eqn:Ha; fw_simpl.
    + fold requested. fold data. rewrite (mem_write_fits _ _ Hfit).
      fw_simpl. fold bytes_read.
      destruct (0 <? bytes_read) eqn:Hr; fw_simpl.
      all: eexists _, _; split; [reflexivity|].
      all: unfold same_outside_audio; fw_simpl; rewrite ?Hi; auto 10.
    + eexists _, _; split; [reflexivity|].
      unfold same_outside_audio, same_audio; fw_simpl; rewrite ?Hi; auto 10.
  - eexists _, _; split; [destruct st; reflexivity|].
    unfold same_outside_audio; auto 10.
Qed.

(** C5: one fill cycle (a pass of the loop body with the sampler
    initialised) copies [bytes_read] bytes to the start of the shared
    buffer, where [bytes_read] is at most [AUDIO_BUFFER_SIZE * 2] and so at
    most the extent of the buffer; it adds [bytes_read] to
    [audio_bytes_captured] (in [unsigned long] arithmetic) and sets
    [audio_data_ready] when [bytes_read] is positive.  When the hardware
    reports zero bytes available, nothing is read or written and buffer,
    counter and flag are unchanged. *)
Theorem fill_cycle (hw : Hardware) (st : World) :
  i2s_initialized st = true ->
  audio_buffer_ok st ->
  0 <= audio_bytes_captured st <= ULONG_MAX ->
  let available := to_size_t (hw_i2s_available hw (clock st)) in
  exists st' l,
    audio_loop_body hw st = Some (tt, st', l)
    /\ (available = 0 ->
        l = [EvI2SAvailable 0; EvTaskDelay 100]
        /\ audio_buffer st' = audio_buffer st
        /\ audio_bytes_captured st' = audio_bytes_captured st
        /\ audio_data_ready st' = audio_data_ready st)
    /\ (0 < available ->
        exists data,
          let bytes_read := Z.of_nat (length data) in
          data = take (Z.to_nat (Z.min available (AUDIO_BUFFER_SIZE * 2)))
                      (hw_i2s_data hw (S (clock st)))
          /\ l = [EvI2SAvailable available;
                  EvI2SReadBytes (Z.min available (AUDIO_BUFFER_SIZE * 2))
                                 bytes_read;
                  EvTaskDelay 100]
          /\ bytes_read <= AUDIO_BUFFER_SIZE * 2 <= sizeof_audio_buffer
          /\ audio_buffer st' = data ++ drop (length data) (audio_buffer st)
          /\ length (audio_buffer st') = length (audio_buffer st)
          /\ audio_bytes_captured st' =
               to_ulong (audio_bytes_captured st + bytes_read)
          /\ (0 < bytes_read -> audio_data_ready st' = true)
          /\ (bytes_read = 0 ->
              audio_data_ready st' = audio_data_ready st)).
Proof.
  intros Hi Hlen Hcnt available.
  destruct (audio_loop_body_run hw st Hlen) as (st' & l & Hrun & _ & H).
  fold available in H. rewrite Hi in H.
  exists st', l. split; [exact Hrun|]. split.
  - intros H0. rewrite H0 in H. cbn in H.
    destruct H as (-> & Hb & Hc & Hr). auto.
  - intros Hpos. apply Z.ltb_lt in Hpos. rewrite Hpos in H.
    rewrite bytes_to_read_min in H.
    set (data := take (Z.to_nat (Z.min available (AUDIO_BUFFER_SIZE * 2)))
                      (hw_i2s_data hw (S (clock st)))) in *.
    destruct H as (Hl & Hbuf & Hrest).
    assert (Hle : Z.of_nat (length data) <= AUDIO_BUFFER_SIZE * 2).
    { subst data. rewrite length_take. unfold AUDIO_BUFFER_SIZE. lia. }
    exists data. cbv zeta.
    split; [reflexivity|]. split; [exact Hl|].
    split; [unfold sizeof_audio_buffer, audio_buffer_len, sizeof_short,
              AUDIO_BUFFER_SIZE in *; lia|].
    split; [exact Hbuf|].
    split.
    { rewrite Hbuf, length_app, length_drop.
      red in Hlen. rewrite Hlen.
      unfold sizeof_audio_buffer, audio_buffer_len, sizeof_short,
        AUDIO_BUFFER_SIZE in *. lia. }
    destruct (Z.ltb_spec 0 (Z.of_nat (length data))) as [Hr|Hr].
    + destruct Hrest as [Hc Hf]. split; [exact Hc|]. split; [auto|lia].
    + destruct Hrest as [Hc Hf].
      assert (Z.of_nat (length data) = 0) as -> by lia.
      rewrite Z.add_0_r, to_ulong_small by lia.
      split; [exact Hc|]. split; [lia|auto].
Qed.

Lemma fill_cycle_witness :
  let available := to_size_t (hw_i2s_available hw_healthy (clock ready)) in
  exists st' l,
    audio_loop_body hw_healthy ready = Some (tt, st', l)
    /\ (available = 0 ->
        l = [EvI2SAvailable 0; EvTaskDelay 100]
        /\ audio_buffer st' = audio_buffer ready
        /\ audio_bytes_captured st' = audio_bytes_captured ready
        /\ audio_data_ready st' = audio_data_ready ready)
    /\ (0 < available ->
        exists data,
          let bytes_read := Z.of_nat (length data) in
          data = take (Z.to_nat (Z.min available (AUDIO_BUFFER_SIZE * 2)))
                      (hw_i2s_data hw_healthy (S (clock ready)))
          /\ l = [EvI2SAvailable available;
                  EvI2SReadBytes (Z.min available (AUDIO_BUFFER_SIZE * 2))
                                 bytes_read;
                  EvTaskDelay 100]
          /\ bytes_read <= AUDIO_BUFFER_SIZE * 2 <= sizeof_audio_buffer
          /\ audio_buffer st' =
               data ++ drop (length data) (audio_buffer ready)
          /\ length (audio_buffer st') = length (audio_buffer ready)
          /\ audio_bytes_captured st' =
               to_ulong (audio_bytes_captured ready + bytes_read)
          /\ (0 < bytes_read -> audio_data_ready st' = true)
          /\ (bytes_read = 0 ->
              audio_data_ready st' = audio_data_ready ready)).
Proof.
  apply (fill_cycle hw_healthy ready).
  - reflexivity.
  - reflexivity.
  - vm_compute. split; discriminate.
Defined.

Lemma drop_past_prefix (data buf : list Byte.byte) (n : nat) :
  (length data <= n)%nat ->
  drop n (data ++ drop (length data) buf) = drop n buf.
Proof.
  intros H. rewrite drop_app_ge by exact H. rewrite drop_drop.
  f_equal. lia.
Qed.

(** A pass of the loop body requests at most [AUDIO_BUFFER_SIZE * 2]
    bytes, keeps the extent of the buffer and leaves the bytes from offset
    1024 on alone. *)
Lemma audio_loop_body_extent (hw : Hardware) (st : World) :
  audio_buffer_ok st ->
  exists st' l,
    audio_loop_body hw st = Some (tt, st', l)
    /\ audio_buffer_ok st'
    /\ spiffs st' = spiffs st
    /\ track_frames None l = Some None
    /\ (forall requested got,
          In (EvI2SReadBytes requested got) l ->
          0 <= got <= requested
          /\ requested <= AUDIO_BUFFER_SIZE * 2
          /\ requested <= sizeof_audio_buffer)
    /\ drop 1024 (audio_buffer st') = drop 1024 (audio_buffer st).
Proof.
  intros Hlen.
  destruct (audio_loop_body_run hw st Hlen) as (st' & l & Hrun & Hout & H).
  exists st', l. split; [exact Hrun|].
  assert (Hsp : spiffs st' = spiffs st) by (red in Hout; tauto).
  set (available := to_size_t (hw_i2s_available hw (clock st))) in *.
  pose proof (bytes_to_read_bound available (proj1 (to_size_t_range _)))
    as Hb.
  set (requested := if available >? AUDIO_BUFFER_SIZE * 2
                    then AUDIO_BUFFER_SIZE * 2 else available) in *.
  set (data := take (Z.to_nat requested) (hw_i2s_data hw (S (clock st))))
    in *.
  assert (Hd : (length data <= Z.to_nat requested)%nat).
  { subst data. rewrite length_take. lia. }
  destruct (i2s_initialized st).
  - destruct (0 <? available).
    + destruct H as (-> & Hbuf & _). unfold audio_buffer_ok in *.
      rewrite Hbuf. split; [|split; [exact Hsp|split; [reflexivity|split]]].
      * rewrite length_app, length_drop, Hlen.
        unfold sizeof_audio_buffer, audio_buffer_len, sizeof_short,
          AUDIO_BUFFER_SIZE in *. lia.
      * intros rq got [Hin|[Hin|[Hin|[]]]]; try discriminate.
        injection Hin as <- <-.
        unfold sizeof_audio_buffer, audio_buffer_len, sizeof_short,
          AUDIO_BUFFER_SIZE in *. lia.
      * apply drop_past_prefix.
        unfold AUDIO_BUFFER_SIZE in *. lia.
    + destruct H as (-> & Hbuf & _). unfold audio_buffer_ok in *.
      rewrite Hbuf. split; [exact Hlen|]. split; [exact Hsp|].
      split; [reflexivity|]. split; [|reflexivity].
      intros rq got [Hin|[Hin|[]]]; discriminate.
  - destruct H as (-> & ->). split; [exact Hlen|]. split; [reflexivity|].
    split; [reflexivity|]. split; [|reflexivity].
    intros rq got [Hin|[]]; discriminate.
Qed.

(** C10: a pass of the sampling loop never writes outside
    [audio_buffer].  The length handed to [I2S.readBytes] is at most
    [AUDIO_BUFFER_SIZE * 2 = 1024] bytes, the array is
    [sizeof(short) * AUDIO_BUFFER_SIZE * 2 = 2048] bytes long, the write
    succeeds (the model faults on a write past the end), the extent of the
    array is unchanged and the bytes from offset 1024 on are not
    touched. *)
Theorem fill_cycle_in_bounds (hw : Hardware) (st : World) :
  audio_buffer_ok st ->
  AUDIO_BUFFER_SIZE * 2 = 1024
  /\ sizeof_audio_buffer = 2048
  /\ exists st' l,
       audio_loop_body hw st = Some (tt, st', l)
       /\ audio_buffer_ok st'
       /\ (forall requested got,
             In (EvI2SReadBytes requested got) l ->
             0 <= got <= requested
             /\ requested <= AUDIO_BUFFER_SIZE * 2
             /\ requested <= sizeof_audio_buffer)
       /\ drop 1024 (audio_buffer st') = drop 1024 (audio_buffer st).
Proof.
  intros Hlen. split; [reflexivity|]. split; [reflexivity|].
  destruct (audio_loop_body_extent hw st Hlen)
    as (st' & l & Hrun & Hok & _ & _ & Hreq & Hdrop).
  exists st', l. auto.
Qed.

Lemma fill_cycle_in_bounds_witness :
  AUDIO_BUFFER_SIZE * 2 = 1024
  /\ sizeof_audio_buffer = 2048
  /\ exists st' l,
       audio_loop_body hw_healthy ready = Some (tt, st', l)
       /\ audio_buffer_ok st'
       /\ (forall requested got,
             In (EvI2SReadBytes requested got) l ->
             0 <= got <= requested
             /\ requested <= AUDIO_BUFFER_SIZE * 2
             /\ requested <= sizeof_audio_buffer)
       /\ drop 1024 (audio_buffer st') = drop 1024 (audio_buffer ready).
Proof.
  apply (fill_cycle_in_bounds hw_healthy ready). reflexivity.
Defined.

(** ** What a request handler may touch *)

(** Every handler returns, keeps the hand-out discipline of frames within
    its own log (a frame it got is given back before it completes, and
    once), never touches the audio state, and only [/capture] writes to
    the flash. *)
Lemma handleClient_frame (hw : Hardware) (html_page : string) (r : request)
    (st : World) :
  exists st' l,
    handleClient hw html_page r st = Some (tt, st', l)
    /\ track_frames None l = Some None
    /\ (forall id, count_return id l = count_get id l
                   /\ (count_get id l <= 1)%nat)
    /\ same_audio st st'
    /\ i2s_initialized st' = i2s_initialized st
    /\ audio_task st' = audio_task st
    /\ List.filter is_i2s_event l = []
    /\ ~ In EvTaskDelete l
    /\ (is_capture (Request r) = false -> spiffs st' = spiffs st).
Proof.
  destruct r as [m uri]. unfold is_capture, same_audio.
  destruct m; fw_run.
  all: eexists _, _; split; [reflexivity|].
  all: split; [cbn; rewrite ?Nat.eqb_refl; reflexivity|].
  all: split;
    [intros id; unfold count_return, count_get; cbn -[Nat.eqb];
     repeat match goal with
            | |- context [Nat.eqb ?a id] => destruct (Nat.eqb a id)
            end; cbn; split; (reflexivity || lia)|].
  all: cbn; repeat split; try discriminate; try tauto; auto.
  all: try (intros; intuition congruence).
Qed.

(** With the sampler uninitialised, a slot of the audio task that is not
    in its loop does nothing but, the first time, delete the task. *)
Lemma audioCaptureTask_idle (hw : Hardware) (st : World) :
  i2s_initialized st = false ->
  audio_task st <> TaskLooping ->
  exists st' l,
    audioCaptureTask hw st = Some (tt, st', l)
    /\ track_frames None l = Some None
    /\ same_audio st st'
    /\ i2s_initialized st' = false
    /\ audio_task st' = TaskDeleted
    /\ List.filter is_i2s_event l = []
    /\ (audio_task st = TaskDeleted -> l = [])
    /\ spiffs st' = spiffs st.
Proof.
  intros Hi Ht. unfold audioCaptureTask, same_audio. fw_unfold. fw_simpl.
  destruct (audio_task st) eqn:E; [|contradiction|].
  - rewrite Hi. fw_simpl. eexists _, _; split; [reflexivity|].
    cbn. repeat split; auto. discriminate.
  - eexists _, _; split; [reflexivity|]. cbn. repeat split; auto.
Qed.

(** A slot of the audio task on a buffer of the declared extent. *)
Lemma audioCaptureTask_ok (hw : Hardware) (st : World) :
  audio_buffer_ok st ->
  exists st' l,
    audioCaptureTask hw st = Some (tt, st', l)
    /\ track_frames None l = Some None
    /\ audio_buffer_ok st'
    /\ spiffs st' = spiffs st.
Proof.
  intros Hlen. unfold audioCaptureTask. unfold bind at 1, gets at 1.
  destruct (audio_task st) eqn:E.
  - fw_unfold. fw_simpl. destruct (i2s_initialized st); fw_simpl.
    all: eexists _, _; split; [reflexivity|]; cbn; auto.
  - destruct (audio_loop_body_extent hw st Hlen)
      as (st' & l & Hrun & Hok & Hsp & Htr & _).
    exists st', l. rewrite Hrun. rewrite app_nil_l. auto.
  - fw_unfold. fw_simpl. eexists _, _; split; [reflexivity|]. cbn. auto.
Qed.

(** ** Schedules *)

Lemma run_cons (hw : Hardware) (html_page : string) (a : activity)
    (rest : list activity) (st : World) :
  run hw html_page (a :: rest) st =
  if running st then
    match step hw html_page a st with
    | Some (_, st1, l1) =>
        match run hw html_page rest st1 with
        | Some (_, st2, l2) => Some (tt, st2, l1 ++ l2)
        | None => None
        end
    | None => None
    end
  else Some (tt, st, []).
Proof.
  cbn [run]. unfold bind at 1, gets. destruct (running st); [|reflexivity].
  unfold bind.
  destruct (step hw html_page a st) as [[[[] st1] l1]|]; [|reflexivity].
  destruct (run hw html_page rest st1) as [[[[] st2] l2]|]; reflexivity.
Qed.

(** Any activity, on a buffer of the declared extent, returns and keeps
    the hand-out discipline; only a [/capture] request changes the
    flash. *)
Lemma step_ok (hw : Hardware) (html_page : string) (a : activity)
    (st : World) :
  audio_buffer_ok st ->
  exists st' l,
    step hw html_page a st = Some (tt, st', l)
    /\ track_frames None l = Some None
    /\ audio_buffer_ok st'
    /\ (is_capture a = false -> spiffs st' = spiffs st).
Proof.
  intros Hlen. destruct a as [r| |].
  - destruct (handleClient_frame hw html_page r st)
      as (st' & l & Hrun & Htr & _ & (Hbuf & _) & _ & _ & _ & _ & Hsp).
    exists st', l. cbn [step]. repeat split; auto.
    red. rewrite Hbuf. exact Hlen.
  - destruct (audioCaptureTask_ok hw st Hlen)
      as (st' & l & Hrun & Htr & Hok & Hsp).
    exists st', l. cbn [step]. auto.
  - exists st, [EvTaskDelay 1000]. cbn. auto.
Qed.

Lemma run_ok (hw : Hardware) (html_page : string) (sched : list activity) :
  forall st,
    audio_buffer_ok st ->
    exists st' l,
      run hw html_page sched st = Some (tt, st', l)
      /\ track_frames None l = Some None
      /\ audio_buffer_ok st'
      /\ (forallb (fun a => negb (is_capture a)) sched = true ->
          spiffs st' = spiffs st).
Proof.
  induction sched as [|a rest IH]; intros st Hlen.
  - exists st, []. cbn. auto.
  - rewrite run_cons. destruct (running st).
    + destruct (step_ok hw html_page a st Hlen)
        as (st1 & l1 & Hstep & Htr1 & Hok1 & Hsp1).
      destruct (IH st1 Hok1) as (st2 & l2 & Hrun & Htr2 & Hok2 & Hsp2).
      rewrite Hstep, Hrun. exists st2, (l1 ++ l2).
      split; [reflexivity|].
      split; [rewrite track_frames_app, Htr1; exact Htr2|].
      split; [exact Hok2|].
      cbn [forallb]. intros H. apply andb_true_iff in H as [Ha Hrest].
      apply negb_true_iff in Ha.
      rewrite (Hsp2 Hrest). auto.
    + exists st, []. cbn. auto.
Qed.

(** ** Frame handles *)

(** C3: over any schedule of requests and task slots, the log of camera
    calls keeps the hand-out discipline: a frame is handed out only while
    none is outstanding and each frame handed out is given back, by its
    own handle, before the next hand-out; at the end none is outstanding,
    and after every prefix of the log at most one is.  Each single request
    (on every path of its handler, the storage failure of /capture
    included) gives back the frame it got exactly once before it
    completes. *)
Theorem frames_released_exactly_once (hw : Hardware) (html_page : string)
    (sched : list activity) (st : World) :
  audio_buffer_ok st ->
  (exists st' l,
     run hw html_page sched st = Some (tt, st', l)
     /\ track_frames None l = Some None
     /\ outstanding l = 0
     /\ (forall l1 l2, l = l1 ++ l2 -> 0 <= outstanding l1 <= 1))
  /\ (forall r st0, exists st' l,
        handleClient hw html_page r st0 = Some (tt, st', l)
        /\ track_frames None l = Some None
        /\ (forall id, count_return id l = count_get id l
                       /\ (count_get id l <= 1)%nat)).
Proof.
  intros Hlen. split.
  - destruct (run_ok hw html_page sched st Hlen)
      as (st' & l & Hrun & Htr & _ & _).
    exists st', l. split; [exact Hrun|]. split; [exact Htr|]. split.
    + rewrite (track_frames_outstanding l None None Htr). reflexivity.
    + intros l1 l2 Hl. exact (track_frames_prefix l l1 l2 None Htr Hl).
  - intros r st0.
    destruct (handleClient_frame hw html_page r st0)
      as (st' & l & Hrun & Htr & Hcnt & _).
    exists st', l. auto.
Qed.

Lemma frames_released_exactly_once_witness :
  (exists st' l,
     run hw_flaky ""
       [GET "/video.jpg"; AudioTick; GET "/capture"; GET "/video.jpg"]
       ready = Some (tt, st', l)
     /\ track_frames None l = Some None
     /\ outstanding l = 0
     /\ (forall l1 l2, l = l1 ++ l2 -> 0 <= outstanding l1 <= 1))
  /\ (forall r st0, exists st' l,
        handleClient hw_flaky "" r st0 = Some (tt, st', l)
        /\ track_frames None l = Some None
        /\ (forall id, count_return id l = count_get id l
                       /\ (count_get id l <= 1)%nat)).
Proof.
  apply (frames_released_exactly_once hw_flaky ""
           [GET "/video.jpg"; AudioTick; GET "/capture"; GET "/video.jpg"]
           ready).
  reflexivity.
Defined.

(** The storage-failure path of [handleCapture]: the frame is given back
    after the 503. *)
Example handleCapture_storage_failure :
  exists st',
    handleCapture
      {| hw_camera_init := fun _ => ESP_OK;
         hw_sensor_get := fun _ => true;
         hw_fb_get := fun _ => Some sample_frame;
         hw_open_write := fun _ => false;
         hw_file_write := fun _ => 0;
         hw_spiffs_begin := fun _ => true;
         hw_spiffs_formatted := fun _ => false;
         hw_i2s_begin := fun _ => true;
         hw_i2s_available := fun _ => 0;
         hw_i2s_data := fun _ => [];
         hw_local_ip := "192.168.1.50";
         hw_rssi := -60 |} ready =
    Some (tt, st',
          [EvFbGet (Some 0%nat); EvFileOpen "/photo.jpg" "w" false;
           EvSend 503 "text/plain" (BText "Failed to save photo");
           EvFbReturn 0%nat]).
Proof. eexists. reflexivity. Qed.

(** ** The persisted snapshot *)

Lemma take_whole (l : list Byte.byte) :
  take (Z.to_nat (Z.of_nat (length l))) l = l.
Proof. rewrite Nat2Z.id. apply firstn_all. Qed.

Lemma handleSavedPhoto_absent (st : World) :
  spiffs st !! "/photo.jpg" = None ->
  exists l,
    handleSavedPhoto st = Some (tt, st, l)
    /\ responses l =
       [{| resp_code := 404; resp_content_type := "text/plain";
           resp_headers := []; resp_body := BText "Photo not found" |}].
Proof.
  intros H. unfold handleSavedPhoto. fw_unfold. fw_simpl. rewrite H.
  eexists. split; reflexivity.
Qed.

Lemma handleSavedPhoto_present (st : World) (content : list Byte.byte) :
  spiffs st !! "/photo.jpg" = Some content ->
  exists l,
    handleSavedPhoto st = Some (tt, st, l)
    /\ responses l =
       [{| resp_code := 200; resp_content_type := "image/jpeg";
           resp_headers :=
             [("Content-Type", "image/jpeg");
              ("Content-Length", String_of (Z.of_nat (length content)))];
           resp_body := BBytes content |}].
Proof.
  intros H. unfold handleSavedPhoto. fw_unfold. fw_simpl. rewrite H.
  eexists. split; reflexivity.
Qed.

(** [handleCapture] answers 200 whenever it got a frame and could open
    the file: [/photo.jpg] then holds as many of the frame's bytes as the
    flash took from the one [file.write], whose count the handler does not
    look at. *)
Lemma handleCapture_result (hw : Hardware) (st : World) :
  exists st' l r,
    handleCapture hw st = Some (tt, st', l)
    /\ responses l = [r]
    /\ (resp_code r = 200 \/ resp_code r = 503)
    /\ audio_buffer st' = audio_buffer st
    /\ (resp_code r = 200 ->
        exists d,
          hw_fb_get hw (clock st) = Some d
          /\ hw_open_write hw (S (clock st)) = true
          /\ In (EvFileWrite "/photo.jpg" (fd_buf d)) l
          /\ spiffs st' !! "/photo.jpg" =
               Some (take (Z.to_nat (hw_file_write hw (S (S (clock st)))))
                          (fd_buf d))).
Proof.
  unfold handleCapture. fw_run.
  all: eexists _, _, _; split; [reflexivity|]; split; [reflexivity|].
  all: cbn [resp_code]; split; [auto|]; split; [reflexivity|].
  all: try (intros; discriminate).
  intros _. eexists. split; [reflexivity|]. split; [reflexivity|].
  unfold fb_len. cbn [fb_buf]. rewrite take_whole. split.
  - cbn. auto.
  - cbn [spiffs set_spiffs set_clock].
    rewrite !lookup_insert_eq. reflexivity.
Qed.

(** As long as no /capture request was served on a flash without
    [/photo.jpg], GET /saved_photo answers 404 "Photo not found". *)
Lemma saved_photo_absent_before_capture (hw : Hardware)
    (html_page : string) (sched : list activity) (st : World) :
  audio_buffer_ok st ->
  spiffs st !! "/photo.jpg" = None ->
  forallb (fun a => negb (is_capture a)) sched = true ->
  exists st1 l1 st2 l2,
    run hw html_page sched st = Some (tt, st1, l1)
    /\ step hw html_page (GET "/saved_photo") st1 = Some (tt, st2, l2)
    /\ responses l2 =
       [{| resp_code := 404; resp_content_type := "text/plain";
           resp_headers := [];
           resp_body := BText "Photo not found" |}].
Proof.
  intros Hlen Hnone Hsched.
  destruct (run_ok hw html_page sched st Hlen)
    as (st1 & l1 & Hrun & _ & _ & Hsp).
  destruct (handleSavedPhoto_absent st1) as (l2 & H2 & Hr2).
  { rewrite (Hsp Hsched). exact Hnone. }
  exists st1, l1, st1, l2. auto.
Qed.

(** After a /capture answered 200 and until the next /capture, GET
    /saved_photo answers 200 with the bytes the flash took from the write:
    a prefix of the captured frame, and the whole frame when the flash
    took at least as many bytes as the frame has. *)
Lemma saved_photo_after_capture (hw : Hardware) (html_page : string)
    (st : World) :
  audio_buffer_ok st ->
  exists st1 l1 r,
    step hw html_page (GET "/capture") st = Some (tt, st1, l1)
    /\ responses l1 = [r]
    /\ (resp_code r = 200 ->
        exists d stored,
          hw_fb_get hw (clock st) = Some d
          /\ stored = take (Z.to_nat (hw_file_write hw (S (S (clock st)))))
                           (fd_buf d)
          /\ (Z.of_nat (length (fd_buf d)) <=
                hw_file_write hw (S (S (clock st))) ->
              stored = fd_buf d)
          /\ forall sched,
               forallb (fun a => negb (is_capture a)) sched = true ->
               exists st2 l2 st3 l3,
                 run hw html_page sched st1 = Some (tt, st2, l2)
                 /\ step hw html_page (GET "/saved_photo") st2 =
                    Some (tt, st3, l3)
                 /\ responses l3 =
                    [{| resp_code := 200;
                        resp_content_type := "image/jpeg";
                        resp_headers :=
                          [("Content-Type", "image/jpeg");
                           ("Content-Length",
                            String_of (Z.of_nat (length stored)))];
                        resp_body := BBytes stored |}]).
Proof.
  intros Hlen.
  destruct (handleCapture_result hw st)
    as (st1 & l1 & r & Hcap & Hr & _ & Hbuf & Hok).
  exists st1, l1, r. split; [exact Hcap|]. split; [exact Hr|].
  intros H200. destruct (Hok H200) as (d & Hget & _ & Hin & Hfile).
  exists d, (take (Z.to_nat (hw_file_write hw (S (S (clock st)))))
                  (fd_buf d)).
  split; [exact Hget|]. split; [reflexivity|]. split.
  { intros Hall. apply take_ge. lia. }
  intros sched Hsched.
  assert (Hlen1 : audio_buffer_ok st1) by (red; rewrite Hbuf; exact Hlen).
  destruct (run_ok hw html_page sched st1 Hlen1)
    as (st2 & l2 & Hrun & _ & _ & Hsp).
  destruct (handleSavedPhoto_present st2 _ (eq_trans
              (f_equal (fun m => m !! "/photo.jpg") (Hsp Hsched)) Hfile))
    as (l3 & H3 & Hr3).
  exists st2, l2, st2, l3. auto.
Qed.

(** C4 (evaluation of /capture where the flash takes fewer bytes than the
    frame has): with the camera initialised, a frame delivered and
    [/photo.jpg] opened, [handleCapture] answers 200 although
    [file.write] stored only part of the frame: the handler does not look
    at the count [file.write] returns.  GET /saved_photo then answers 200
    with the stored prefix, which is shorter than the captured frame and
    so not the bytes that were captured. *)
Theorem capture_short_write_still_200 (hw : Hardware) (st : World)
    (d : frame_data) :
  camera_initialized st = true ->
  hw_fb_get hw (clock st) = Some d ->
  hw_open_write hw (S (clock st)) = true ->
  0 <= hw_file_write hw (S (S (clock st))) < Z.of_nat (length (fd_buf d)) ->
  exists st1 l1 l2 stored,
    handleCapture hw st = Some (tt, st1, l1)
    /\ responses l1 =
       [{| resp_code := 200;
           resp_content_type := "text/plain; charset=utf-8";
           resp_headers := [];
           resp_body := BText "拍照成功" |}]
    /\ In (EvFileWrite "/photo.jpg" (fd_buf d)) l1
    /\ handleSavedPhoto st1 = Some (tt, st1, l2)
    /\ responses l2 =
       [{| resp_code := 200; resp_content_type := "image/jpeg";
           resp_headers :=
             [("Content-Type", "image/jpeg");
              ("Content-Length", String_of (Z.of_nat (length stored)))];
           resp_body := BBytes stored |}]
    /\ stored = take (Z.to_nat (hw_file_write hw (S (S (clock st)))))
                     (fd_buf d)
    /\ (length stored < length (fd_buf d))%nat
    /\ stored <> fd_buf d.
Proof.
  intros Hinit Hget Hopen Hshort.
  set (stored := take (Z.to_nat (hw_file_write hw (S (S (clock st)))))
                      (fd_buf d)).
  assert (Hlt : (length stored < length (fd_buf d))%nat).
  { subst stored. rewrite length_take. lia. }
  assert (Hrun : exists st1 l1,
            handleCapture hw st = Some (tt, st1, l1)
            /\ responses l1 =
               [{| resp_code := 200;
                   resp_content_type := "text/plain; charset=utf-8";
                   resp_headers := [];
                   resp_body := BText "拍照成功" |}]
            /\ In (EvFileWrite "/photo.jpg" (fd_buf d)) l1
            /\ spiffs st1 !! "/photo.jpg" = Some stored).
  { unfold handleCapture, bind at 1, gets. rewrite Hinit.
    fw_unfold. fw_simpl. rewrite Hget. fw_simpl. rewrite Hopen. fw_simpl.
    eexists _, _. split; [reflexivity|]. split; [reflexivity|].
    unfold fb_len. cbn [fb_buf]. rewrite take_whole. split.
    - cbn. auto.
    - cbn [spiffs set_spiffs set_clock].
      rewrite !lookup_insert_eq. reflexivity. }
  destruct Hrun as (st1 & l1 & Hcap & Hresp & Hin & Hfile).
  destruct (handleSavedPhoto_present st1 stored Hfile) as (l2 & H2 & Hr2).
  exists st1, l1, l2, stored.
  split; [exact Hcap|]. split; [exact Hresp|]. split; [exact Hin|].
  split; [exact H2|]. split; [exact Hr2|]. split; [reflexivity|].
  split; [exact Hlt|].
  intros E. rewrite E in Hlt. lia.
Qed.

Lemma capture_short_write_still_200_witness :
  exists st1 l1 l2 stored,
    handleCapture hw_short_write ready = Some (tt, st1, l1)
    /\ responses l1 =
       [{| resp_code := 200;
           resp_content_type := "text/plain; charset=utf-8";
           resp_headers := [];
           resp_body := BText "拍照成功" |}]
    /\ In (EvFileWrite "/photo.jpg" (fd_buf sample_frame)) l1
    /\ handleSavedPhoto st1 = Some (tt, st1, l2)
    /\ responses l2 =
       [{| resp_code := 200; resp_content_type := "image/jpeg";
           resp_headers :=
             [("Content-Type", "image/jpeg");
              ("Content-Length", String_of (Z.of_nat (length stored)))];
           resp_body := BBytes stored |}]
    /\ stored =
         take (Z.to_nat (hw_file_write hw_short_write (S (S (clock ready)))))
              (fd_buf sample_frame)
    /\ (length stored < length (fd_buf sample_frame))%nat
    /\ stored <> fd_buf sample_frame.
Proof.
  apply (capture_short_write_still_200 hw_short_write ready sample_frame).
  - reflexivity.
  - reflexivity.
  - reflexivity.
  - vm_compute. split; [discriminate|reflexivity].
Defined.

(** The bytes /saved_photo serves in that run: the first two of the four
    captured. *)
Example capture_short_write_two_of_four :
  exists st1 l1 l2,
    handleCapture hw_short_write ready = Some (tt, st1, l1)
    /\ handleSavedPhoto st1 = Some (tt, st1, l2)
    /\ fd_buf sample_frame = [Byte.xff; Byte.xd8; Byte.xff; Byte.xd9]
    /\ responses l2 =
       [{| resp_code := 200; resp_content_type := "image/jpeg";
           resp_headers :=
             [("Content-Type", "image/jpeg"); ("Content-Length", "2")];
           resp_body := BBytes [Byte.xff; Byte.xd8] |}].
Proof. eexists _, _, _. repeat split. Qed.

(** ** The audio task without a sampler *)

Lemma setupI2S_failed (hw : Hardware) (st : World) :
  hw_i2s_begin hw (clock st) = false ->
  exists st',
    setupI2S hw st = Some (tt, st', [EvI2SBegin false])
    /\ i2s_initialized st' = i2s_initialized st
    /\ audio_task st' = audio_task st.
Proof.
  intros H. unfold setupI2S. fw_unfold. fw_simpl. rewrite H. fw_simpl.
  eexists. split; [reflexivity|]. split; reflexivity.
Qed.

Lemma step_idle (hw : Hardware) (html_page : string) (a : activity)
    (st : World) :
  i2s_initialized st = false ->
  audio_task st <> TaskLooping ->
  exists st' l,
    step hw html_page a st = Some (tt, st', l)
    /\ same_audio st st'
    /\ i2s_initialized st' = false
    /\ audio_task st' <> TaskLooping
    /\ List.filter is_i2s_event l = []
    /\ (audio_task st = TaskDeleted ->
        audio_task st' = TaskDeleted /\ ~ In EvTaskDelete l).
Proof.
  intros Hi Ht. destruct a as [r| |].
  - destruct (handleClient_frame hw html_page r st)
      as (st' & l & Hrun & _ & _ & Ha & Hi' & Ht' & Hf & Hd & _).
    exists st', l. cbn [step]. rewrite Hi', Ht'. auto 10.
  - destruct (audioCaptureTask_idle hw st Hi Ht)
      as (st' & l & Hrun & _ & Ha & Hi' & Ht' & Hf & Hd & _).
    exists st', l. cbn [step]. rewrite Ht'.
    split; [exact Hrun|]. split; [exact Ha|]. split; [exact Hi'|].
    split; [discriminate|]. split; [exact Hf|].
    intros H. rewrite (Hd H). auto.
  - exists st, [EvTaskDelay 1000]. unfold same_audio. cbn.
    repeat split; auto. intros [E|[]]. discriminate.
Qed.

Lemma run_idle (hw : Hardware) (html_page : string)
    (sched : list activity) :
  forall st,
    i2s_initialized st = false ->
    audio_task st <> TaskLooping ->
    exists st' l,
      run hw html_page sched st = Some (tt, st', l)
      /\ same_audio st st'
      /\ i2s_initialized st' = false
      /\ audio_task st' <> TaskLooping
      /\ List.filter is_i2s_event l = []
      /\ (audio_task st = TaskDeleted ->
          audio_task st' = TaskDeleted /\ ~ In EvTaskDelete l).
Proof.
  induction sched as [|a rest IH]; intros st Hi Ht.
  - exists st, []. unfold same_audio. cbn. auto 10.
  - rewrite run_cons. destruct (running st).
    + destruct (step_idle hw html_page a st Hi Ht)
        as (st1 & l1 & Hstep & Ha1 & Hi1 & Ht1 & Hf1 & Hd1).
      destruct (IH st1 Hi1 Ht1)
        as (st2 & l2 & Hrun & Ha2 & Hi2 & Ht2 & Hf2 & Hd2).
      rewrite Hstep, Hrun. exists st2, (l1 ++ l2).
      split; [reflexivity|].
      split.
      { unfold same_audio in *. intuition congruence. }
      split; [exact Hi2|]. split; [exact Ht2|].
      split; [rewrite List.filter_app, Hf1, Hf2; reflexivity|].
      intros Hdel. destruct (Hd1 Hdel) as [Hdel1 Hn1].
      destruct (Hd2 Hdel1) as [Hdel2 Hn2].
      split; [exact Hdel2|].
      intros Hin. apply in_app_or in Hin. tauto.
    + exists st, []. unfold same_audio. cbn. auto 10.
Qed.

(** C6: when the audio task starts while [i2s_initialized] is false, its
    first slot deletes the task and does nothing else.  Over every
    schedule of requests and task slots from there, no fill cycle runs:
    the I2S driver is never queried or read, and buffer, byte counter and
    ready flag keep their values; the task never enters its loop; and once
    deleted it stays deleted and is not deleted again. *)
Theorem audio_task_exits_without_sampler (hw : Hardware)
    (html_page : string) (st : World) :
  i2s_initialized st = false ->
  audio_task st = TaskCreated ->
  audioCaptureTask hw st =
    Some (tt, set_audio_task TaskDeleted st, [EvTaskDelete])
  /\ (forall sched, exists st' l,
        run hw html_page sched st = Some (tt, st', l)
        /\ List.filter is_i2s_event l = []
        /\ same_audio st st'
        /\ i2s_initialized st' = false
        /\ audio_task st' <> TaskLooping)
  /\ (forall sched, exists st' l,
        run hw html_page sched (set_audio_task TaskDeleted st) =
          Some (tt, st', l)
        /\ List.filter is_i2s_event l = []
        /\ same_audio st st'
        /\ audio_task st' = TaskDeleted
        /\ ~ In EvTaskDelete l).
Proof.
  intros Hi Ht. split; [|split].
  - unfold audioCaptureTask. fw_unfold. fw_simpl. rewrite Ht, Hi.
    reflexivity.
  - intros sched.
    destruct (run_idle hw html_page sched st Hi)
      as (st' & l & Hrun & Ha & Hi' & Ht' & Hf & _).
    { rewrite Ht. discriminate. }
    exists st', l. auto.
  - intros sched.
    destruct (run_idle hw html_page sched (set_audio_task TaskDeleted st))
      as (st' & l & Hrun & Ha & Hi' & Ht' & Hf & Hd).
    { exact Hi. }
    { cbn. discriminate. }
    destruct (Hd eq_refl) as [Hdel Hn].
    exists st', l. auto.
Qed.

Lemma audio_task_exits_without_sampler_witness :
  audioCaptureTask hw_dead (boot ∅) =
    Some (tt, set_audio_task TaskDeleted (boot ∅), [EvTaskDelete])
  /\ (forall sched, exists st' l,
        run hw_dead "" sched (boot ∅) = Some (tt, st', l)
        /\ List.filter is_i2s_event l = []
        /\ same_audio (boot ∅) st'
        /\ i2s_initialized st' = false
        /\ audio_task st' <> TaskLooping)
  /\ (forall sched, exists st' l,
        run hw_dead "" sched (set_audio_task TaskDeleted (boot ∅)) =
          Some (tt, st', l)
        /\ List.filter is_i2s_event l = []
        /\ same_audio (boot ∅) st'
        /\ audio_task st' = TaskDeleted
        /\ ~ In EvTaskDelete l).
Proof.
  apply (audio_task_exits_without_sampler hw_dead "" (boot ∅));
    reflexivity.
Defined.

(** From power-up with an I2S driver that does not start: [setup] leaves
    the sampler uninitialised, and three slots of the audio task produce
    one task deletion and no I2S traffic. *)
Example audio_task_after_failed_setup :
  exists st',
    bind (setup hw_dead (fun _ => true))
         (fun _ => run hw_dead "" [AudioTick; AudioTick; AudioTick])
         (boot ∅) =
    Some (tt, st',
          [EvDelay 3000; EvWritePeriReg "RTC_CNTL_BROWN_OUT_REG" 0;
           EvSpiffsBegin false false; EvCameraInit 261; EvI2SBegin false;
           EvTaskDelete])
    /\ i2s_initialized st' = false
    /\ audio_task st' = TaskDeleted.
Proof. eexists. split; [reflexivity|]. split; reflexivity. Qed.

(** * Further properties of the firmware *)

(** ** Routing *)

Lemma is_registered_false (uri : string) :
  is_registered uri = false ->
  String.eqb uri "/" = false /\ String.eqb uri "/video.jpg" = false
  /\ String.eqb uri "/capture" = false /\ String.eqb uri "/save" = false
  /\ String.eqb uri "/saved_photo" = false
  /\ String.eqb uri "/audio" = false /\ String.eqb uri "/status" = false
  /\ String.eqb uri "/restart" = false.
Proof.
  unfold is_registered, registered_uris. cbn [existsb]. intros H.
  repeat (apply orb_false_elim in H as [? H]). auto 10.
Qed.

(** X1: a request whose method is not GET, or whose path is none of the
    eight registered ones, is answered 404 by [handleNotFound] and changes
    nothing: no global is written and no collaborator is called. *)
Theorem unrouted_request_not_found (hw : Hardware) (html_page : string)
    (r : request) (st : World) :
  req_method r <> HTTP_GET \/ is_registered (req_uri r) = false ->
  handleClient hw html_page r st =
    Some (tt, st,
          [EvSend 404 "text/plain; charset=utf-8"
                  (BText "404 - 页面未找到")]).
Proof.
  intros H. unfold handleClient.
  destruct (req_method r) eqn:Em; try reflexivity.
  destruct H as [H|H]; [contradiction|].
  apply is_registered_false in H
    as (-> & -> & -> & -> & -> & -> & -> & ->).
  reflexivity.
Qed.

Lemma unrouted_request_not_found_witness :
  handleClient hw_healthy ""
    {| req_method := HTTP_POST; req_uri := "/capture" |} ready =
    Some (tt, ready,
          [EvSend 404 "text/plain; charset=utf-8"
                  (BText "404 - 页面未找到")]).
Proof.
  apply (unrouted_request_not_found hw_healthy ""
           {| req_method := HTTP_POST; req_uri := "/capture" |} ready).
  left. discriminate.
Defined.

(** X2: every request is answered by exactly one response, whose status
    is 200, 404 or 503; no handler returns without sending, and none
    sends twice. *)
Theorem every_request_one_response (hw : Hardware) (html_page : string)
    (r : request) (st : World) :
  exists st' l resp,
    handleClient hw html_page r st = Some (tt, st', l)
    /\ responses l = [resp]
    /\ (resp_code resp = 200 \/ resp_code resp = 404
        \/ resp_code resp = 503).
Proof.
  destruct r as [m uri]. destruct m; fw_run.
  all: eexists _, _, _; split; [reflexivity|]; split; [reflexivity|].
  all: cbn; auto.
Qed.

(** X3: the handlers of every path other than /video.jpg, /capture and
    /restart are reads: they leave the whole state as it was (globals,
    flash and call clock), make no camera call and no I2S call, and write
    no file.  In particular GET /save, which answers 200 with the text
    that the photo was saved to the SD card, stores nothing: that one
    [send] is the only call it makes. *)
Theorem read_only_requests (hw : Hardware) (html_page : string)
    (r : request) (st : World) :
  is_mutating (req_uri r) = false ->
  exists l,
    handleClient hw html_page r st = Some (tt, st, l)
    /\ List.filter is_camera_event l = []
    /\ List.filter is_i2s_event l = []
    /\ List.filter is_file_write l = []
    /\ (req_method r = HTTP_GET -> req_uri r = "/save" ->
        l = [EvSend 200 "text/plain; charset=utf-8"
                    (BText "照片已保存到 SD 卡")]).
Proof.
  unfold is_mutating. intros H.
  apply orb_false_elim in H as [H Hr].
  apply orb_false_elim in H as [Hv Hc].
  destruct r as [m uri]. cbn [req_uri req_method] in *.
  unfold handleClient. cbn [req_method req_uri]. rewrite Hv, Hc, Hr.
  destruct m; fw_run.
  all: eexists; split; [reflexivity|]; cbn.
  all: repeat split; auto; try discriminate.
  all: intros _ E; subst uri; discriminate.
Qed.

Lemma read_only_requests_witness :
  exists l,
    handleClient hw_healthy ""
      {| req_method := HTTP_GET; req_uri := "/save" |} ready =
      Some (tt, ready, l)
    /\ List.filter is_camera_event l = []
    /\ List.filter is_i2s_event l = []
    /\ List.filter is_file_write l = []
    /\ (req_method {| req_method := HTTP_GET; req_uri := "/save" |} =
          HTTP_GET ->
        req_uri {| req_method := HTTP_GET; req_uri := "/save" |} = "/save" ->
        l = [EvSend 200 "text/plain; charset=utf-8"
                    (BText "照片已保存到 SD 卡")]).
Proof.
  apply (read_only_requests hw_healthy ""
           {| req_method := HTTP_GET; req_uri := "/save" |} ready).
  reflexivity.
Defined.

(** ** Frames served by /video.jpg *)

(** X4: when [handleVideoJpeg] answers 200, the body is exactly the bytes
    of the frame the driver delivered (all of them), sent as
    [image/jpeg] with a [Content-Length] header that is the decimal length
    of those bytes.  A frame served on the first acquire also carries
    [Cache-Control: no-cache]; a frame served after the recovery sequence
    (acquired by the call three clock ticks later) does not. *)
Theorem video_jpg_served_frame (hw : Hardware) (st : World) :
  exists st' l r,
    handleVideoJpeg hw st = Some (tt, st', l)
    /\ responses l = [r]
    /\ (resp_code r = 200 ->
        exists d,
          resp_body r = BBytes (fd_buf d)
          /\ resp_content_type r = "image/jpeg"
          /\ In ("Content-Type", "image/jpeg") (resp_headers r)
          /\ In ("Content-Length", String_of (Z.of_nat (length (fd_buf d))))
                (resp_headers r)
          /\ ((hw_fb_get hw (clock st) = Some d
               /\ In ("Cache-Control", "no-cache") (resp_headers r))
              \/ (hw_fb_get hw (clock st) = None
                  /\ hw_fb_get hw (S (S (S (clock st)))) = Some d
                  /\ ~ In ("Cache-Control", "no-cache") (resp_headers r)))).
Proof.
  fw_run.
  all: eexists _, _, _; split; [reflexivity|]; split; [reflexivity|].
  all: cbn [resp_code]; try (intros; discriminate).
  all: intros _; eexists; unfold fb_len; cbn [fb_buf];
    rewrite take_whole; cbn.
  all: split; [reflexivity|]; split; [reflexivity|].
  all: split; [auto|]; split; [auto|].
  - left. auto.
  - right. split; [reflexivity|]. split; [reflexivity|].
    intros [H|[H|[]]]; discriminate.
  - right. split; [reflexivity|]. split; [reflexivity|].
    intros [H|[H|[]]]; discriminate.
Qed.

(** X5: the recovery sequence of [handleVideoJpeg].  When the camera is
    initialised and the first acquire fails, the handler calls
    [esp_camera_deinit], waits 100 ms and calls [esp_camera_init] once, in
    that order.  If that call fails, the only thing that follows is the
    response 503 "Camera capture failed".  If it succeeds, the handler asks
    for the sensor handle, sets the frame size to VGA exactly when the
    handle is there, and then makes one more acquire, in that order.
    Nothing in the sequence is repeated, a frame obtained by the retry is
    given back, the answer is 200 or that 503, and [camera_initialized] is
    still true afterwards, also when the re-initialisation failed. *)
Theorem video_jpg_recovery_sequence (hw : Hardware) (st : World) :
  camera_initialized st = true ->
  hw_fb_get hw (clock st) = None ->
  exists st' rest r,
    handleVideoJpeg hw st =
      Some (tt, st',
            [EvFbGet None; EvCameraDeinit; EvDelay 100;
             EvCameraInit (hw_camera_init hw (S (clock st)))] ++ rest)
    /\ (List.filter is_recovery_event rest = [EvSetFramesize FRAMESIZE_VGA]
        \/ List.filter is_recovery_event rest = [])
    /\ (length (List.filter is_fb_get rest) <= 1)%nat
    /\ track_frames None rest = Some None
    /\ (hw_camera_init hw (S (clock st)) <> ESP_OK ->
        rest = [EvSend 503 "text/plain" (BText "Camera capture failed")])
    /\ camera_initialized st' = true
    /\ responses rest = [r]
    /\ (resp_code r = 200 \/
        (resp_code r = 503 /\ resp_body r = BText "Camera capture failed"))
    /\ (hw_camera_init hw (S (clock st)) = ESP_OK ->
        exists tail,
          rest =
            EvSensorGet (hw_sensor_get hw (S (S (clock st))))
            :: (if hw_sensor_get hw (S (S (clock st)))
                then [EvSetFramesize FRAMESIZE_VGA] else [])
            ++ EvFbGet (match hw_fb_get hw (S (S (S (clock st)))) with
                        | Some _ => Some (S (S (S (clock st))))
                        | None => None
                        end)
            :: tail
          /\ List.filter is_recovery_event tail = []
          /\ List.filter is_fb_get tail = []).
Proof.
  intros Hinit Hget. unfold handleVideoJpeg, bind at 1, gets.
  rewrite Hinit. fw_unfold. fw_simpl. rewrite Hget. fw_simpl.
  destruct (hw_camera_init hw (S (clock st)) =? ESP_OK) eqn:Herr; fw_simpl.
  - apply Z.eqb_eq in Herr.
    repeat (fw_case; fw_simpl).
    all: try congruence.
    all: eexists _, _, _; split; [reflexivity|].
    all: cbn; rewrite ?Nat.eqb_refl.
    all: split; [first [left; reflexivity | right; reflexivity]|].
    all: split; [cbn; lia|].
    all: split; [reflexivity|].
    all: split; [intros Hne; contradiction|].
    all: split; [exact Hinit|].
    all: split; [reflexivity|].
    all: split; [auto|].
    all: intros _; eexists; split; [reflexivity|]; split; reflexivity.
  - apply Z.eqb_neq in Herr.
    eexists _, _, _; split; [reflexivity|].
    cbn. split; [right; reflexivity|]. repeat split; auto.
    intros E. contradiction.
Qed.

Lemma video_jpg_recovery_sequence_witness :
  exists st' rest r,
    handleVideoJpeg hw_flaky ready =
      Some (tt, st',
            [EvFbGet None; EvCameraDeinit; EvDelay 100;
             EvCameraInit (hw_camera_init hw_flaky (S (clock ready)))]
            ++ rest)
    /\ (List.filter is_recovery_event rest = [EvSetFramesize FRAMESIZE_VGA]
        \/ List.filter is_recovery_event rest = [])
    /\ (length (List.filter is_fb_get rest) <= 1)%nat
    /\ track_frames None rest = Some None
    /\ (hw_camera_init hw_flaky (S (clock ready)) <> ESP_OK ->
        rest = [EvSend 503 "text/plain" (BText "Camera capture failed")])
    /\ camera_initialized st' = true
    /\ responses rest = [r]
    /\ (resp_code r = 200 \/
        (resp_code r = 503 /\ resp_body r = BText "Camera capture failed"))
    /\ (hw_camera_init hw_flaky (S (clock ready)) = ESP_OK ->
        exists tail,
          rest =
            EvSensorGet (hw_sensor_get hw_flaky (S (S (clock ready))))
            :: (if hw_sensor_get hw_flaky (S (S (clock ready)))
                then [EvSetFramesize FRAMESIZE_VGA] else [])
            ++ EvFbGet (match hw_fb_get hw_flaky (S (S (S (clock ready)))) with
                        | Some _ => Some (S (S (S (clock ready))))
                        | None => None
                        end)
            :: tail
          /\ List.filter is_recovery_event tail = []
          /\ List.filter is_fb_get tail = []).
Proof.
  apply (video_jpg_recovery_sequence hw_flaky ready); reflexivity.
Defined.

(** ** /capture *)

(** X6: [handleCapture] never changes [frame_count]; with the camera
    uninitialised it only sends 503 "Camera not initialized"; and whenever
    it answers 503 it has written nothing: no [file.write] is made and the
    flash is as before, so a photo persisted earlier is still there.  When
    the acquire itself fails, the file system is not called at all. *)
Theorem capture_failure_keeps_flash (hw : Hardware) (st : World) :
  exists st' l r,
    handleCapture hw st = Some (tt, st', l)
    /\ responses l = [r]
    /\ frame_count st' = frame_count st
    /\ (camera_initialized st = false ->
        st' = st
        /\ l = [EvSend 503 "text/plain" (BText "Camera not initialized")])
    /\ (resp_code r = 503 ->
        spiffs st' = spiffs st /\ List.filter is_file_write l = [])
    /\ (camera_initialized st = true ->
        hw_fb_get hw (clock st) = None ->
        List.filter is_file_event l = []).
Proof.
  unfold handleCapture. fw_run.
  all: eexists _, _, _; split; [reflexivity|]; split; [reflexivity|].
  all: cbn; repeat split; auto; try discriminate; try congruence.
Qed.

(** ** Start-up *)

(** X7: [setupCamera] calls [esp_camera_init] once.  When it fails, no
    other camera call follows and [camera_initialized] keeps its value;
    when it succeeds, [camera_initialized] becomes true, the frame size is
    set to VGA exactly when the sensor handle is there, and the test frame,
    if one is delivered, is given back before the function returns.  The
    test frame is not counted in [frame_count] and nothing is written to
    the flash. *)
Theorem setupCamera_outcome (hw : Hardware) (st : World) :
  exists st' rest,
    setupCamera hw st =
      Some (tt, st', EvCameraInit (hw_camera_init hw (clock st)) :: rest)
    /\ (forall e, ~ In (EvCameraInit e) rest)
    /\ track_frames None rest = Some None
    /\ frame_count st' = frame_count st
    /\ spiffs st' = spiffs st
    /\ ~ In (EvSetFramesize FRAMESIZE_UXGA) rest
    /\ (hw_camera_init hw (clock st) = ESP_OK ->
        camera_initialized st' = true
        /\ (In (EvSetFramesize FRAMESIZE_VGA) rest <->
            hw_sensor_get hw (S (clock st)) = true))
    /\ (hw_camera_init hw (clock st) <> ESP_OK ->
        rest = [] /\ camera_initialized st' = camera_initialized st).
Proof.
  unfold setupCamera. fw_unfold. fw_simpl.
  destruct (hw_camera_init hw (clock st) =? ESP_OK) eqn:Herr; fw_simpl.
  - apply Z.eqb_eq in Herr.
    destruct (hw_sensor_get hw (S (clock st))) eqn:Hs; fw_simpl;
      destruct (hw_fb_get hw (S (S (clock st)))) eqn:Hf; fw_simpl.
    all: eexists _, _; split; [reflexivity|].
    all: cbn; rewrite ?Nat.eqb_refl.
    all: repeat split; auto; try (intros; intuition congruence).
  - apply Z.eqb_neq in Herr.
    eexists _, _; split; [reflexivity|].
    cbn. repeat split; auto; try (intros; intuition congruence).
Qed.

Lemma set_clock_set_clock (a b : nat) (w : World) :
  set_clock a (set_clock b w) = set_clock a w.
Proof. reflexivity. Qed.

(** The waiting loop of [setupWiFi]: it only delays, one second at a
    time and at most [remaining] times, and queries the status once more
    than it delays. *)
Lemma wifi_wait_run (wifi_status : nat -> bool) (remaining : nat) :
  forall st, exists n,
    wifi_wait wifi_status remaining st =
      Some (tt, set_clock (S (clock st + n)) st,
            repeat (EvDelay 1000) n)
    /\ (n <= remaining)%nat
    /\ (forall i, (i < n)%nat -> wifi_status (clock st + i)%nat = false)
    /\ ((n < remaining)%nat -> wifi_status (clock st + n)%nat = true).
Proof.
  induction remaining as [|r IH]; intros st.
  - exists 0%nat. cbn [wifi_wait]. fw_unfold. fw_simpl.
    rewrite Nat.add_0_r.
    split; [destruct (wifi_status (clock st)); reflexivity|].
    split; [lia|]. split; intros; lia.
  - cbn [wifi_wait]. unfold bind at 1, tick at 1.
    destruct (wifi_status (clock st)) eqn:Hs; cbn [negb].
    + exists 0%nat. rewrite Nat.add_0_r. split; [reflexivity|].
      split; [lia|]. split; [intros; lia|]. intros _. exact Hs.
    + destruct (IH (set_clock (S (clock st)) st)) as (n & Hrun & Hle & Hno & Hyes).
      exists (S n). unfold bind, delay, emit. rewrite Hrun.
      cbn [clock set_clock] in *. rewrite set_clock_set_clock.
      replace (S (clock st) + n)%nat with (clock st + S n)%nat in * by lia.
      split; [reflexivity|]. split; [lia|]. split.
      * intros i Hi. destruct i as [|i].
        -- rewrite Nat.add_0_r. exact Hs.
        -- replace (clock st + S i)%nat with (S (clock st) + i)%nat by lia.
           apply Hno. lia.
      * intros Hlt. apply Hyes. lia.
Qed.

(** X8: [setupWiFi] never waits for ever: it delays one second at a time,
    at most 30 times, and does nothing else observable.  It delays not at
    all when the link is up at its first status query, and exactly 30
    times when the link never comes up.  [wifi_connected] is set exactly
    when the status query made after the loop reports the link up (it is
    never cleared), and no other global changes. *)
Theorem setupWiFi_bounded (wifi_status : nat -> bool) (st : World) :
  exists st' n,
    setupWiFi wifi_status st = Some (tt, st', repeat (EvDelay 1000) n)
    /\ (n <= 30)%nat
    /\ wifi_connected st' =
         wifi_connected st || wifi_status (S (clock st + n))
    /\ camera_initialized st' = camera_initialized st
    /\ i2s_initialized st' = i2s_initialized st
    /\ same_audio st st'
    /\ frame_count st' = frame_count st
    /\ spiffs st' = spiffs st
    /\ (wifi_status (clock st) = true -> n = 0%nat)
    /\ ((forall k, wifi_status k = false) ->
        n = 30%nat /\ wifi_connected st' = wifi_connected st).
Proof.
  destruct (wifi_wait_run wifi_status 30 st) as (n & Hrun & Hle & Hno & Hyes).
  unfold setupWiFi, bind. rewrite Hrun. unfold tick.
  cbn [clock set_clock].
  assert (Hfirst : wifi_status (clock st) = true -> n = 0%nat).
  { intros H. destruct n as [|n]; [reflexivity|].
    rewrite <- (Nat.add_0_r (clock st)) in H.
    rewrite (Hno 0%nat) in H by lia. discriminate. }
  assert (Hnever : (forall k, wifi_status k = false) -> n = 30%nat).
  { intros H. destruct (Nat.eq_dec n 30%nat) as [E|E]; [exact E|].
    rewrite H in Hyes. assert (false = true) by (apply Hyes; lia).
    discriminate. }
  destruct (wifi_status (S (clock st + n))) eqn:Hfinal.
  - eexists _, n. split; [unfold modify; rewrite app_nil_r; reflexivity|].
    unfold same_audio. cbn. rewrite Hfinal, orb_true_r.
    repeat split; auto.
    all: match goal with
         | Hk : forall k, _ k = false |- _ =>
             rewrite Hk in Hfinal; discriminate
         end.
  - eexists _, n. split; [unfold ret; rewrite app_nil_r; reflexivity|].
    unfold same_audio. cbn. rewrite Hfinal, orb_false_r.
    repeat split; auto.
Qed.

(** ** What requests and task slots leave alone *)

Lemma handleClient_globals (hw : Hardware) (html_page : string)
    (r : request) (st : World) :
  exists st' l,
    handleClient hw html_page r st = Some (tt, st', l)
    /\ same_flags st st'
    /\ (is_video (Request r) = false -> frame_count st' = frame_count st).
Proof.
  destruct r as [m uri]. unfold is_video, same_flags.
  destruct m; fw_run.
  all: eexists _, _; split; [reflexivity|].
  all: cbn; repeat split; auto; try discriminate; try congruence.
Qed.

Lemma audioCaptureTask_globals (hw : Hardware) (st : World) :
  audio_buffer_ok st ->
  exists st' l,
    audioCaptureTask hw st = Some (tt, st', l)
    /\ audio_buffer_ok st'
    /\ same_flags st st'
    /\ frame_count st' = frame_count st
    /\ (audio_data_ready st = true -> audio_data_ready st' = true)
    /\ (i2s_initialized st = true -> audio_task st <> TaskDeleted ->
        audio_task st' = TaskLooping /\ ~ In EvTaskDelete l)
    /\ List.filter is_camera_event l = [].
Proof.
  intros Hlen. unfold audioCaptureTask. unfold bind at 1, gets at 1.
  unfold same_flags.
  destruct (audio_task st) eqn:E.
  - fw_unfold. fw_simpl. destruct (i2s_initialized st) eqn:Hi; fw_simpl.
    all: eexists _, _; split; [reflexivity|]; cbn; rewrite ?Hi.
    all: repeat split; auto; try discriminate.
  - destruct (audio_loop_body_extent hw st Hlen)
      as (st1 & l1 & Hrun1 & Hok & _).
    destruct (audio_loop_body_run hw st Hlen)
      as (st' & l & Hrun & Hout & H).
    rewrite Hrun in Hrun1. injection Hrun1 as <- <-.
    exists st', l. rewrite Hrun, app_nil_l.
    destruct Hout as (Hc & Hw & Hi & Hf & _ & _ & Ht).
    split; [reflexivity|]. split; [exact Hok|].
    split; [auto|]. split; [exact Hf|].
    split.
    + intros Hready. destruct (i2s_initialized st).
      * destruct (0 <? _).
        -- destruct H as (_ & _ & H). destruct (0 <? _); destruct H; congruence.
        -- destruct H as (_ & _ & _ & H). congruence.
      * destruct H as (_ & ->). exact Hready.
    + assert (Hl : ~ In EvTaskDelete l /\ List.filter is_camera_event l = []).
      { destruct (i2s_initialized st).
        * destruct (0 <? _).
          -- destruct H as (-> & _). split; [|reflexivity].
             intros [X|[X|[X|[]]]]; discriminate.
          -- destruct H as (-> & _). split; [|reflexivity].
             intros [X|[X|[]]]; discriminate.
        * destruct H as (-> & _). split; [|reflexivity].
          intros [X|[]]; discriminate. }
      destruct Hl as [Hl1 Hl2]. split; [|exact Hl2].
      intros _ _. split; [congruence|exact Hl1].
  - eexists _, _; split; [reflexivity|]; cbn.
    repeat split; auto. all: intros; congruence.
Qed.

(** With [camera_initialized] false no handler calls the camera
    driver. *)
Lemma handleClient_no_camera (hw : Hardware) (html_page : string)
    (r : request) (st : World) :
  camera_initialized st = false ->
  exists st' l,
    handleClient hw html_page r st = Some (tt, st', l)
    /\ List.filter is_camera_event l = []
    /\ camera_initialized st' = false
    /\ (req_method r = HTTP_GET ->
        req_uri r = "/video.jpg" \/ req_uri r = "/capture" ->
        l = [EvSend 503 "text/plain" (BText "Camera not initialized")]).
Proof.
  intros Hc. destruct r as [m uri]. cbn [req_method req_uri].
  destruct m; fw_run; try congruence.
  all: eexists _, _; split; [reflexivity|]; split; [reflexivity|].
  all: split; [cbn; assumption|].
  all: try (intros; discriminate).
  all: try reflexivity.
  all: intros _ [E|E]; subst uri; discriminate.
Qed.

Lemma step_globals (hw : Hardware) (html_page : string) (a : activity)
    (st : World) :
  audio_buffer_ok st ->
  exists st' l,
    step hw html_page a st = Some (tt, st', l)
    /\ audio_buffer_ok st'
    /\ same_flags st st'
    /\ (is_video a = false -> frame_count st' = frame_count st)
    /\ (audio_data_ready st = true -> audio_data_ready st' = true)
    /\ (is_audio_tick a = false ->
        same_audio st st' /\ List.filter is_i2s_event l = [])
    /\ (i2s_initialized st = true -> audio_task st <> TaskDeleted ->
        audio_task st' <> TaskDeleted /\ ~ In EvTaskDelete l)
    /\ (camera_initialized st = false ->
        List.filter is_camera_event l = []).
Proof.
  intros Hlen. destruct a as [r| |]; cbn [step is_audio_tick].
  - destruct (handleClient_frame hw html_page r st)
      as (st1 & l1 & Hrun1 & _ & _ & Ha & _ & Ht & Hf & Hd & _).
    destruct (handleClient_globals hw html_page r st)
      as (st' & l & Hrun & Hfl & Hfc).
    rewrite Hrun in Hrun1. injection Hrun1 as <- <-.
    exists st', l. split; [exact Hrun|].
    destruct Ha as (Hb & Hc & Hr).
    split; [red; rewrite Hb; exact Hlen|].
    split; [exact Hfl|]. split; [exact Hfc|].
    split; [congruence|].
    split; [intros _; unfold same_audio; auto|].
    split; [intros _ Hnd; split; [congruence|exact Hd]|].
    intros Hcam.
    destruct (handleClient_no_camera hw html_page r st Hcam)
      as (st2 & l2 & Hrun2 & Hno & _).
    rewrite Hrun in Hrun2. injection Hrun2 as <- <-. exact Hno.
  - destruct (audioCaptureTask_globals hw st Hlen)
      as (st' & l & Hrun & Hok & Hfl & Hfc & Hr & Ht & Hcam).
    exists st', l. split; [exact Hrun|]. split; [exact Hok|].
    split; [exact Hfl|]. split; [auto|]. split; [exact Hr|].
    split; [discriminate|].
    split; [|auto].
    intros Hi Hnd. destruct (Ht Hi Hnd) as [E Hn].
    split; [congruence|exact Hn].
  - exists st, [EvTaskDelay 1000]. unfold videoCaptureTask, vTaskDelay, emit.
    unfold same_flags, same_audio. cbn.
    repeat split; auto. intros [X|[]]; discriminate.
Qed.

(** Induction over a schedule: a property of the state and a property of
    the log that every permitted activity keeps are kept by every schedule
    of permitted activities. *)
Lemma run_preserves (hw : Hardware) (html_page : string)
    (ok : activity -> bool) (P : World -> Prop) (Q : list event -> Prop) :
  Q [] ->
  (forall l1 l2, Q l1 -> Q l2 -> Q (l1 ++ l2)) ->
  (forall a st,
     ok a = true -> P st ->
     exists st' l,
       step hw html_page a st = Some (tt, st', l) /\ P st' /\ Q l) ->
  forall sched st,
    forallb ok sched = true -> P st ->
    exists st' l,
      run hw html_page sched st = Some (tt, st', l) /\ P st' /\ Q l.
Proof.
  intros Hnil Happ Hstep sched.
  induction sched as [|a rest IH]; intros st Hall HP.
  - exists st, []. cbn. auto.
  - cbn [forallb] in Hall. apply andb_true_iff in Hall as [Ha Hrest].
    rewrite run_cons. destruct (running st).
    + destruct (Hstep a st Ha HP) as (st1 & l1 & Hs & HP1 & HQ1).
      destruct (IH st1 Hrest HP1) as (st2 & l2 & Hr & HP2 & HQ2).
      rewrite Hs, Hr. exists st2, (l1 ++ l2). auto.
    + exists st, []. auto.
Qed.

Lemma forallb_true_const (sched : list activity) :
  forallb (fun _ => true) sched = true.
Proof. induction sched; auto. Qed.

(** X9: no request and no task slot changes [camera_initialized],
    [wifi_connected] or [i2s_initialized]: over every schedule the three
    flags keep the values start-up gave them.  In particular a
    re-initialisation that fails inside the recovery sequence of
    [handleVideoJpeg] does not clear [camera_initialized]. *)
Theorem flags_never_change (hw : Hardware) (html_page : string)
    (sched : list activity) (st : World) :
  audio_buffer_ok st ->
  exists st' l,
    run hw html_page sched st = Some (tt, st', l)
    /\ same_flags st st'.
Proof.
  intros Hlen.
  destruct (run_preserves hw html_page (fun _ => true)
              (fun w => audio_buffer_ok w /\ same_flags st w)
              (fun _ => True)) with (sched := sched) (st := st)
    as (st' & l & Hrun & [_ Hfl] & _); auto.
  - intros a w _ [Hok Hfl].
    destruct (step_globals hw html_page a w Hok)
      as (w' & l & Hs & Hok' & Hfl' & _).
    exists w', l. split; [exact Hs|]. split; [|exact I].
    split; [exact Hok'|].
    unfold same_flags in *. intuition congruence.
  - apply forallb_true_const.
  - split; [exact Hlen|]. unfold same_flags. auto.
  - exists st', l. auto.
Qed.

Lemma flags_never_change_witness :
  exists st' l,
    run hw_no_frames "" [GET "/video.jpg"; AudioTick; GET "/capture"] ready =
      Some (tt, st', l)
    /\ same_flags ready st'.
Proof.
  apply (flags_never_change hw_no_frames ""
           [GET "/video.jpg"; AudioTick; GET "/capture"] ready).
  reflexivity.
Defined.

(** X10: only GET /video.jpg changes [frame_count].  Over a schedule
    without such a request the counter keeps its value, whatever else is
    served: a successful /capture takes a frame from the camera but is not
    counted. *)
Theorem frame_count_only_video (hw : Hardware) (html_page : string)
    (sched : list activity) (st : World) :
  audio_buffer_ok st ->
  forallb (fun a => negb (is_video a)) sched = true ->
  exists st' l,
    run hw html_page sched st = Some (tt, st', l)
    /\ frame_count st' = frame_count st.
Proof.
  intros Hlen Hsched.
  destruct (run_preserves hw html_page (fun a => negb (is_video a))
              (fun w => audio_buffer_ok w /\ frame_count w = frame_count st)
              (fun _ => True)) with (sched := sched) (st := st)
    as (st' & l & Hrun & [_ Hfc] & _); auto.
  - intros a w Ha [Hok Hfc]. apply negb_true_iff in Ha.
    destruct (step_globals hw html_page a w Hok)
      as (w' & l & Hs & Hok' & _ & Hfc' & _).
    exists w', l. split; [exact Hs|]. split; [|exact I].
    split; [exact Hok'|]. rewrite (Hfc' Ha). exact Hfc.
  - exists st', l. auto.
Qed.

Lemma frame_count_only_video_witness :
  exists st' l,
    run hw_healthy "" [GET "/capture"; AudioTick; GET "/saved_photo"] ready =
      Some (tt, st', l)
    /\ frame_count st' = frame_count ready.
Proof.
  apply (frame_count_only_video hw_healthy ""
           [GET "/capture"; AudioTick; GET "/saved_photo"] ready);
    reflexivity.
Defined.

(** X11: requests and slots of the video task never touch the audio
    state: over a schedule without a slot of the audio task, the audio
    buffer, [audio_bytes_captured] and [audio_data_ready] keep their values
    and the I2S driver is not called.  GET /audio itself reads none of
    them: in every state its only calls are the [sendHeader] and the [send]
    of one fixed text. *)
Theorem requests_leave_audio_alone (hw : Hardware) (html_page : string)
    (sched : list activity) (st : World) :
  forallb (fun a => negb (is_audio_tick a)) sched = true ->
  (exists st' l,
     run hw html_page sched st = Some (tt, st', l)
     /\ same_audio st st'
     /\ List.filter is_i2s_event l = [])
  /\ (forall w,
        step hw html_page (GET "/audio") w =
          Some (tt, w,
                [EvSendHeader "Content-Type" "audio/wav";
                 EvSend 200 "text/plain" (BText "Audio stream endpoint")])).
Proof.
  intros Hsched. split; [|intros w; reflexivity].
  apply (run_preserves hw html_page (fun a => negb (is_audio_tick a))
           (fun w => same_audio st w)
           (fun l => List.filter is_i2s_event l = [])); auto.
  - intros l1 l2 H1 H2. rewrite List.filter_app, H1, H2. reflexivity.
  - intros a w Ha Hsame. apply negb_true_iff in Ha.
    destruct a as [r| |]; [| discriminate |].
    + destruct (handleClient_frame hw html_page r w)
        as (w' & l & Hs & _ & _ & Hau & _ & _ & Hf & _).
      exists w', l. cbn [step]. split; [exact Hs|]. split; [|exact Hf].
      unfold same_audio in *. intuition congruence.
    + exists w, [EvTaskDelay 1000]. auto.
  - unfold same_audio. auto.
Qed.

Lemma requests_leave_audio_alone_witness :
  (exists st' l,
     run hw_healthy "" [GET "/audio"; GET "/video.jpg"; VideoTick] ready =
       Some (tt, st', l)
     /\ same_audio ready st'
     /\ List.filter is_i2s_event l = [])
  /\ (forall w,
        step hw_healthy "" (GET "/audio") w =
          Some (tt, w,
                [EvSendHeader "Content-Type" "audio/wav";
                 EvSend 200 "text/plain" (BText "Audio stream endpoint")])).
Proof.
  apply (requests_leave_audio_alone hw_healthy ""
           [GET "/audio"; GET "/video.jpg"; VideoTick] ready).
  reflexivity.
Defined.

(** X12: nothing ever clears [audio_data_ready]: once a fill has set it,
    it stays set over every schedule of requests and task slots (no
    handler consumes the buffer and resets the flag). *)
Theorem audio_data_ready_never_cleared (hw : Hardware) (html_page : string)
    (sched : list activity) (st : World) :
  audio_buffer_ok st ->
  audio_data_ready st = true ->
  exists st' l,
    run hw html_page sched st = Some (tt, st', l)
    /\ audio_data_ready st' = true.
Proof.
  intros Hlen Hready.
  destruct (run_preserves hw html_page (fun _ => true)
              (fun w => audio_buffer_ok w /\ audio_data_ready w = true)
              (fun _ => True)) with (sched := sched) (st := st)
    as (st' & l & Hrun & [_ Hr] & _); auto.
  - intros a w _ [Hok Hr].
    destruct (step_globals hw html_page a w Hok)
      as (w' & l & Hs & Hok' & _ & _ & Hr' & _).
    exists w', l. auto.
  - apply forallb_true_const.
  - exists st', l. auto.
Qed.

Lemma audio_data_ready_never_cleared_witness :
  exists st' l,
    run hw_no_frames "" [AudioTick; AudioTick; GET "/audio"; AudioTick]
      (set_audio_data_ready true ready) = Some (tt, st', l)
    /\ audio_data_ready st' = true.
Proof.
  apply (audio_data_ready_never_cleared hw_no_frames ""
           [AudioTick; AudioTick; GET "/audio"; AudioTick]
           (set_audio_data_ready true ready));
    reflexivity.
Defined.

(** X13: with the sampler initialised the audio task never exits: over
    every schedule the task is never deleted, whatever the I2S driver
    reports (no data, short reads), and after its first slot it is in its
    loop. *)
Theorem audio_task_never_exits_with_sampler (hw : Hardware)
    (html_page : string) (sched : list activity) (st : World) :
  audio_buffer_ok st ->
  i2s_initialized st = true ->
  audio_task st <> TaskDeleted ->
  (exists st' l,
     run hw html_page sched st = Some (tt, st', l)
     /\ audio_task st' <> TaskDeleted
     /\ ~ In EvTaskDelete l)
  /\ (exists st1 l1,
        audioCaptureTask hw st = Some (tt, st1, l1)
        /\ audio_task st1 = TaskLooping).
Proof.
  intros Hlen Hi Ht. split.
  - destruct (run_preserves hw html_page (fun _ => true)
                (fun w => audio_buffer_ok w /\ i2s_initialized w = true
                          /\ audio_task w <> TaskDeleted)
                (fun l => ~ In EvTaskDelete l)) with (sched := sched) (st := st)
      as (st' & l & Hrun & (_ & _ & Ht') & Hl); auto.
    + intros l1 l2 H1 H2 Hin. apply in_app_or in Hin. tauto.
    + intros a w _ (Hok & Hiw & Htw).
      destruct (step_globals hw html_page a w Hok)
        as (w' & l & Hs & Hok' & (_ & _ & Hi') & _ & _ & _ & Htask & _).
      destruct (Htask Hiw Htw) as [Ht' Hl].
      exists w', l. rewrite Hi'. auto.
    + apply forallb_true_const.
    + exists st', l. auto.
  - destruct (audioCaptureTask_globals hw st Hlen)
      as (st1 & l1 & Hrun & _ & _ & _ & _ & Htask & _).
    exists st1, l1. split; [exact Hrun|]. apply (Htask Hi Ht).
Qed.

Lemma audio_task_never_exits_with_sampler_witness :
  (exists st' l,
     run hw_no_frames "" [AudioTick; GET "/status"; AudioTick] ready =
       Some (tt, st', l)
     /\ audio_task st' <> TaskDeleted
     /\ ~ In EvTaskDelete l)
  /\ (exists st1 l1,
        audioCaptureTask hw_no_frames ready = Some (tt, st1, l1)
        /\ audio_task st1 = TaskLooping).
Proof.
  apply (audio_task_never_exits_with_sampler hw_no_frames ""
           [AudioTick; GET "/status"; AudioTick] ready).
  - reflexivity.
  - reflexivity.
  - discriminate.
Defined.

(** X14: a camera that did not come up at start-up is never tried again:
    while [camera_initialized] is false, no request and no task slot calls
    the camera driver (no init, no acquire, no recovery sequence), over any
    schedule, and GET /video.jpg and GET /capture only answer 503 "Camera
    not initialized". *)
Theorem camera_never_initialized_later (hw : Hardware) (html_page : string)
    (sched : list activity) (st : World) :
  audio_buffer_ok st ->
  camera_initialized st = false ->
  (exists st' l,
     run hw html_page sched st = Some (tt, st', l)
     /\ camera_initialized st' = false
     /\ List.filter is_camera_event l = [])
  /\ (forall uri, uri = "/video.jpg" \/ uri = "/capture" ->
        step hw html_page (GET uri) st =
          Some (tt, st,
                [EvSend 503 "text/plain" (BText "Camera not initialized")])).
Proof.
  intros Hlen Hc. split.
  - destruct (run_preserves hw html_page (fun _ => true)
                (fun w => audio_buffer_ok w /\ camera_initialized w = false)
                (fun l => List.filter is_camera_event l = []))
      with (sched := sched) (st := st)
      as (st' & l & Hrun & (_ & Hc') & Hl); auto.
    + intros l1 l2 H1 H2. rewrite List.filter_app, H1, H2. reflexivity.
    + intros a w _ (Hok & Hcw).
      destruct (step_globals hw html_page a w Hok)
        as (w' & l & Hs & Hok' & (Hc' & _) & _ & _ & _ & _ & Hcam).
      exists w', l. rewrite Hc'. auto.
    + apply forallb_true_const.
    + exists st', l. auto.
  - intros uri [->| ->]; cbn; unfold handleVideoJpeg, handleCapture,
      bind, gets; rewrite Hc; reflexivity.
Qed.

Lemma camera_never_initialized_later_witness :
  (exists st' l,
     run hw_healthy "" [GET "/video.jpg"; GET "/capture"; AudioTick]
       (boot ∅) = Some (tt, st', l)
     /\ camera_initialized st' = false
     /\ List.filter is_camera_event l = [])
  /\ (forall uri, uri = "/video.jpg" \/ uri = "/capture" ->
        step hw_healthy "" (GET uri) (boot ∅) =
          Some (tt, boot ∅,
                [EvSend 503 "text/plain" (BText "Camera not initialized")])).
Proof.
  apply (camera_never_initialized_later hw_healthy ""
           [GET "/video.jpg"; GET "/capture"; AudioTick] (boot ∅));
    reflexivity.
Defined.

(** ** The whole process *)

Lemma bind_run {A B : Type} (c : M A) (k : A -> M B) (st st1 : World)
    (a : A) (l1 : list event) :
  c st = Some (a, st1, l1) ->
  bind c k st =
  match k a st1 with
  | Some (b, st2, l2) => Some (b, st2, l1 ++ l2)
  | None => None
  end.
Proof. intros H. unfold bind. rewrite H. reflexivity. Qed.

Lemma SPIFFS_begin_run (hw : Hardware) (st : World) :
  exists st',
    SPIFFS_begin hw true st =
      Some (hw_spiffs_begin hw (clock st), st',
            [EvSpiffsBegin (hw_spiffs_begin hw (clock st))
                           (hw_spiffs_formatted hw (clock st))])
    /\ spiffs st' =
       (if hw_spiffs_formatted hw (clock st) then ∅ else spiffs st)
    /\ same_flags st st'
    /\ same_audio st st'
    /\ frame_count st' = frame_count st.
Proof.
  unfold SPIFFS_begin, same_flags, same_audio. fw_unfold. fw_simpl.
  destruct (hw_spiffs_formatted hw (clock st)); fw_simpl.
  all: eexists; split; [reflexivity|]; cbn; auto 10.
Qed.

Lemma setupWiFi_run (wifi_status : nat -> bool) (st : World) :
  exists st' n,
    setupWiFi wifi_status st = Some (tt, st', repeat (EvDelay 1000) n)
    /\ audio_buffer st' = audio_buffer st
    /\ same_audio st st'
    /\ camera_initialized st' = camera_initialized st
    /\ i2s_initialized st' = i2s_initialized st
    /\ spiffs st' = spiffs st
    /\ frame_count st' = frame_count st.
Proof.
  destruct (wifi_wait_run wifi_status 30 st) as (n & Hrun & _).
  unfold setupWiFi, bind. rewrite Hrun. unfold tick.
  cbn [clock set_clock]. unfold same_audio.
  destruct (wifi_status (S (clock st + n))).
  - eexists _, n. split; [unfold modify; rewrite app_nil_r; reflexivity|].
    cbn. auto 10.
  - eexists _, n. split; [unfold ret; rewrite app_nil_r; reflexivity|].
    cbn. auto 10.
Qed.

(** Camera, I2S and task creation, the last three steps of [setup]. *)
Lemma setup_drivers_run (hw : Hardware) (st : World) :
  exists st' l,
    (setupCamera hw >> setupI2S hw >> modify (set_audio_task TaskCreated)) st
      = Some (tt, st', l)
    /\ track_frames None l = Some None
    /\ same_audio st st'
    /\ audio_task st' = TaskCreated
    /\ spiffs st' = spiffs st
    /\ frame_count st' = frame_count st
    /\ length (List.filter (fun e => match e with
                                     | EvCameraInit _ => true
                                     | _ => false end) l) = 1%nat
    /\ length (List.filter (fun e => match e with
                                     | EvI2SBegin _ => true
                                     | _ => false end) l) = 1%nat
    /\ (camera_initialized st = false ->
        (camera_initialized st' = true <-> In (EvCameraInit ESP_OK) l))
    /\ (i2s_initialized st = false ->
        (i2s_initialized st' = true <-> In (EvI2SBegin true) l)).
Proof.
  unfold same_audio. fw_unfold. fw_simpl.
  destruct (hw_camera_init hw (clock st) =? ESP_OK) eqn:Herr; fw_simpl.
  - apply Z.eqb_eq in Herr. rewrite Herr.
    repeat (fw_case_setup; fw_simpl).
    all: eexists _, _; split; [reflexivity|].
    all: cbn; rewrite ?Nat.eqb_refl.
    all: repeat split; auto; try (intros; intuition congruence).
  - apply Z.eqb_neq in Herr.
    repeat (fw_case_setup; fw_simpl).
    all: eexists _, _; split; [reflexivity|].
    all: cbn.
    all: repeat split; auto;
      try (intros; intuition (try congruence; try discriminate)).
    all: try (match goal with
              | H : EvCameraInit _ = EvCameraInit _ |- _ =>
                  injection H as H; contradiction
              end).
Qed.

Lemma filter_repeat_delay (f : event -> bool) (n : nat) :
  f (EvDelay 1000) = false ->
  List.filter f (repeat (EvDelay 1000) n) = [].
Proof.
  intros H. induction n as [|n IH]; [reflexivity|].
  cbn [repeat List.filter]. rewrite H. exact IH.
Qed.

Lemma track_frames_repeat_delay (n : nat) (h : option nat) :
  track_frames h (repeat (EvDelay 1000) n) = Some h.
Proof. induction n as [|n IH]; [reflexivity|exact IH]. Qed.

(** [setup], step by step. *)
Lemma setup_run (hw : Hardware) (wifi_status : nat -> bool) (st : World) :
  exists st' n l,
    setup hw wifi_status st =
      Some (tt, st',
            [EvDelay 3000; EvWritePeriReg "RTC_CNTL_BROWN_OUT_REG" 0;
             EvSpiffsBegin (hw_spiffs_begin hw (clock st))
                           (hw_spiffs_formatted hw (clock st))]
            ++ repeat (EvDelay 1000) n ++ l)
    /\ (n <= 30)%nat
    /\ track_frames None l = Some None
    /\ same_audio st st'
    /\ audio_task st' = TaskCreated
    /\ spiffs st' =
       (if hw_spiffs_formatted hw (clock st) then ∅ else spiffs st)
    /\ frame_count st' = frame_count st
    /\ length (List.filter (fun e => match e with
                                     | EvCameraInit _ => true
                                     | _ => false end) l) = 1%nat
    /\ length (List.filter (fun e => match e with
                                     | EvI2SBegin _ => true
                                     | _ => false end) l) = 1%nat
    /\ (camera_initialized st = false ->
        (camera_initialized st' = true <-> In (EvCameraInit ESP_OK) l))
    /\ (i2s_initialized st = false ->
        (i2s_initialized st' = true <-> In (EvI2SBegin true) l)).
Proof.
  destruct (SPIFFS_begin_run hw st)
    as (st0 & Hsp & Hflash0 & (Hc0 & _ & Hi0) & Ha0 & Hf0).
  destruct (wifi_wait_run wifi_status 30 st0) as (n & _ & Hn & _).
  destruct (setupWiFi_run wifi_status st0)
    as (st1 & n1 & Hw & _ & Ha1 & Hc1 & Hi1 & Hflash1 & Hf1).
  assert (Hn1 : (n1 <= 30)%nat).
  { destruct (wifi_wait_run wifi_status 30 st0) as (m & Hm & Hle & _).
    unfold setupWiFi in Hw. rewrite (bind_run _ _ _ _ _ _ Hm) in Hw.
    unfold bind, tick in Hw.
    destruct (wifi_status _) in Hw; cbn in Hw; injection Hw as _ Hl;
      rewrite app_nil_r in Hl; apply (f_equal (@length event)) in Hl;
      rewrite !repeat_length in Hl; lia. }
  destruct (setup_drivers_run hw st1)
    as (st2 & l & Hd & Htr & Ha2 & Ht & Hflash2 & Hf2 & Hn2 & Hn3 & Hcam & Hi2s).
  exists st2, n1, l. split.
  { unfold setup.
    rewrite (bind_run (delay 3000) _ st st tt [EvDelay 3000] eq_refl).
    rewrite (bind_run (WRITE_PERI_REG "RTC_CNTL_BROWN_OUT_REG" 0) _ st st tt
               [EvWritePeriReg "RTC_CNTL_BROWN_OUT_REG" 0] eq_refl).
    rewrite (bind_run _ _ _ _ _ _ Hsp).
    rewrite (bind_run _ _ _ _ _ _ Hw).
    fold (bind (setupI2S hw)
               (fun _ => modify (set_audio_task TaskCreated))).
    change (bind (setupCamera hw)
                 (fun _ => bind (setupI2S hw)
                             (fun _ => modify (set_audio_task TaskCreated)))
                 st1)
      with ((setupCamera hw >> setupI2S hw >>
             modify (set_audio_task TaskCreated)) st1).
    rewrite Hd. reflexivity. }
  split; [exact Hn1|]. split; [exact Htr|].
  split; [unfold same_audio in *; intuition congruence|].
  split; [exact Ht|]. split; [congruence|]. split; [congruence|].
  split; [exact Hn2|]. split; [exact Hn3|]. split.
  - intros Hc. apply Hcam. congruence.
  - intros Hi. apply Hi2s. congruence.
Qed.



(** X16: the process as a whole, from power-up on any flash content, with
    any behaviour of WiFi, camera, flash and I2S: start-up followed by any
    schedule of requests and task slots runs to the end without a write
    outside [audio_buffer], the buffer keeps its declared extent, every
    frame handed out by the camera (the test frame of [setupCamera]
    included) is given back before the next one is requested, and none is
    outstanding at the end. *)
Theorem power_up_then_any_schedule (hw : Hardware) (html_page : string)
    (wifi_status : nat -> bool) (flash : gmap string (list Byte.byte))
    (sched : list activity) :
  exists st' l,
    bind (setup hw wifi_status)
         (fun _ => run hw html_page sched) (boot flash) = Some (tt, st', l)
    /\ audio_buffer_ok st'
    /\ track_frames None l = Some None
    /\ outstanding l = 0
    /\ (forall l1 l2, l = l1 ++ l2 -> 0 <= outstanding l1 <= 1).
Proof.
  destruct (setup_run hw wifi_status (boot flash))
    as (st2 & n & l2 & Hs & _ & Htr2 & (Hb2 & _) & _).
  assert (Hok : audio_buffer_ok st2).
  { red. rewrite Hb2. reflexivity. }
  destruct (run_ok hw html_page sched st2 Hok)
    as (st3 & l3 & Hr & Htr3 & Hok3 & _).
  eexists st3, _.
  split.
  { rewrite (bind_run _ _ _ _ _ _ Hs), Hr. reflexivity. }
  assert (Htr : track_frames None
                  (([EvDelay 3000;
                     EvWritePeriReg "RTC_CNTL_BROWN_OUT_REG" 0;
                     EvSpiffsBegin (hw_spiffs_begin hw (clock (boot flash)))
                       (hw_spiffs_formatted hw (clock (boot flash)))]
                    ++ repeat (EvDelay 1000) n ++ l2) ++ l3)
                = Some None).
  { rewrite (track_frames_app _ l3). cbn [app track_frames].
    rewrite track_frames_app, track_frames_repeat_delay, Htr2.
    exact Htr3. }
  split; [exact Hok3|]. split; [exact Htr|]. split.
  - rewrite (track_frames_outstanding _ None None Htr). reflexivity.
  - intros l1 l2' Hl. exact (track_frames_prefix _ l1 l2' None Htr Hl).
Qed.

(** ** Counter wrap-around *)

(** X17: [frame_count] is an [unsigned long] and wraps: when it holds
    [ULONG_MAX] and GET /video.jpg serves a frame on the first acquire, the
    counter reported by /status afterwards is 0. *)
Theorem frame_count_wraps_to_zero (hw : Hardware) (st : World)
    (d : frame_data) :
  camera_initialized st = true ->
  hw_fb_get hw (clock st) = Some d ->
  frame_count st = ULONG_MAX ->
  exists st' l r,
    handleVideoJpeg hw st = Some (tt, st', l)
    /\ responses l = [r]
    /\ resp_code r = 200
    /\ frame_count st' = 0
    /\ status_field hw "frame_count" st = Some (JUInt 4294967295)
    /\ status_field hw "frame_count" st' = Some (JUInt 0).
Proof.
  intros Hinit Hget Hmax. unfold handleVideoJpeg, bind at 1, gets.
  rewrite Hinit. fw_unfold. fw_simpl. rewrite Hget. fw_simpl.
  eexists _, _, _. split; [reflexivity|]. split; [reflexivity|].
  cbn. rewrite Hmax. repeat split.
Qed.

Lemma frame_count_wraps_to_zero_witness :
  exists st' l r,
    handleVideoJpeg hw_healthy (set_frame_count ULONG_MAX ready) =
      Some (tt, st', l)
    /\ responses l = [r]
    /\ resp_code r = 200
    /\ frame_count st' = 0
    /\ status_field hw_healthy "frame_count"
         (set_frame_count ULONG_MAX ready) = Some (JUInt 4294967295)
    /\ status_field hw_healthy "frame_count" st' = Some (JUInt 0).
Proof.
  apply (frame_count_wraps_to_zero hw_healthy
           (set_frame_count ULONG_MAX ready) sample_frame); reflexivity.
Defined.

(** ** /restart *)

(** X18: GET /restart sends its confirmation first, waits one second and
    only then restarts the device; it writes no global other than the end
    of the run and leaves the flash as it is, so a persisted photo survives
    the restart.  Nothing scheduled after it runs in this process: the log
    of the whole schedule ends with the restart. *)
Theorem restart_ends_processing (hw : Hardware) (html_page : string)
    (sched : list activity) (st : World) :
  running st = true ->
  run hw html_page (GET "/restart" :: sched) st =
    Some (tt, set_running false st,
          [EvSend 200 "text/plain; charset=utf-8" (BText "设备重启中...");
           EvDelay 1000; EvRestart])
  /\ spiffs (set_running false st) = spiffs st
  /\ forall sched', run hw html_page sched' (set_running false st) =
                    Some (tt, set_running false st, []).
Proof.
  intros Hrun.
  assert (Hstop : forall sched',
            run hw html_page sched' (set_running false st) =
            Some (tt, set_running false st, [])).
  { intros [|a rest]; [reflexivity|]. rewrite run_cons. reflexivity. }
  split; [|split; [reflexivity|exact Hstop]].
  rewrite run_cons, Hrun.
  replace (step hw html_page (GET "/restart") st)
    with (Some (tt, set_running false st,
                [EvSend 200 "text/plain; charset=utf-8"
                        (BText "设备重启中...");
                 EvDelay 1000; EvRestart]))
    by reflexivity.
  rewrite Hstop. reflexivity.
Qed.

Lemma restart_ends_processing_witness :
  run hw_healthy "" (GET "/restart" :: [GET "/video.jpg"; AudioTick]) ready =
    Some (tt, set_running false ready,
          [EvSend 200 "text/plain; charset=utf-8" (BText "设备重启中...");
           EvDelay 1000; EvRestart])
  /\ spiffs (set_running false ready) = spiffs ready
  /\ forall sched', run hw_healthy "" sched' (set_running false ready) =
                    Some (tt, set_running false ready, []).
Proof.
  apply (restart_ends_processing hw_healthy ""
           [GET "/video.jpg"; AudioTick] ready).
  reflexivity.
Defined.
